(** * scheduler.py: a launchd job registry

    A shallow embedding of [scripts/scheduler.py].  The script keeps a JSON
    registry of named jobs, writes one launchd definition (plist) per job and
    asks [launchctl] to load or unload it.

    Conventions of the embedding:
    - JSON documents (the registry entries, the schedule given on the command
      line, the objects printed on standard output) are values of [json];
      numbers are integers, Python [dict]s are finite maps keyed by strings;
    - Python [str] is [string]; the text is taken to be ASCII;
    - a Python exception is an [exn]; pure code lives in [outcome], code with
      side effects in the state-and-exception monad [M] over a [World] that
      holds the registry file, the definition files, the log files, the
      directories, the state of the host and the trace of what was done;
    - [launchctl], the clock and [plistlib.dump] are parameters of the
      development: nothing is assumed about what they answer;
    - every other filesystem call is taken to succeed, [open] on a
      definition file included: what is proved of [add_job] past that call
      holds of the runs in which the file could be opened;
    - a path is identified with the string [pathlib] gives for it, and the
      registry file, the definition files and the log files are kept
      apart. *)

From Stdlib Require Import ZArith Ascii DecimalString.
From stdpp Require Import gmap strings list fin_maps.

Set Warnings "-register-all".
#[local] Open Scope string_scope.

(** ** JSON values and Python exceptions *)

Inductive json :=
| JNull
| JBool (b : bool)
| JInt (z : Z)
| JStr (s : string)
| JList (l : list json)
| JDict (d : gmap string json).

Abbreviation dict := (gmap string json).

Inductive exn :=
| KeyError
| TypeError
| IndexError
| AttributeError
| ValueError
| OverflowError.

Inductive outcome (A : Type) :=
| Return (a : A)
| Raise (e : exn).
Arguments Return {A} a.
Arguments Raise {A} e.

#[export] Instance outcome_ret : MRet outcome := fun A a => Return a.
#[export] Instance outcome_bind : MBind outcome := fun A B f m =>
  match m with
  | Return a => f a
  | Raise e => Raise e
  end.

(** [for x in l: ...] collecting results, stopping at the first exception. *)
Fixpoint for_each {A B} (f : A -> outcome B) (l : list A) : outcome (list B) :=
  match l with
  | [] => Return []
  | x :: xs =>
      match f x with
      | Raise e => Raise e
      | Return y =>
          match for_each f xs with
          | Raise e => Raise e
          | Return ys => Return (y :: ys)
          end
      end
  end.

(** ** The Python primitives the script applies to JSON values *)

Module Py.

(** [bool(v)] *)
Definition truthy (v : json) : bool :=
  match v with
  | JNull => false
  | JBool b => b
  | JInt z => negb (z =? 0)%Z
  | JStr s => negb (String.eqb s "")
  | JList l => match l with [] => false | _ => true end
  | JDict d => negb (bool_decide (d = ∅))
  end.

(** [v == s] for a [str] [s]: only an equal [str] compares equal. *)
Definition eq_str (v : json) (s : string) : bool :=
  match v with
  | JStr t => String.eqb t s
  | _ => false
  end.

(** [v[k]] for a [str] key [k]. *)
Definition getitem (v : json) (k : string) : outcome json :=
  match v with
  | JDict d => match d !! k with Some x => Return x | None => Raise KeyError end
  | _ => Raise TypeError
  end.

(** [v[k] = x] for a [str] key [k]. *)
Definition setitem (v : json) (k : string) (x : json) : outcome json :=
  match v with
  | JDict d => Return (JDict (<[k := x]> d))
  | _ => Raise TypeError
  end.

(** [v.get(k, dflt)]: only a [dict] has the method. *)
Definition get (v : json) (k : string) (dflt : json) : outcome json :=
  match v with
  | JDict d => Return (default dflt (d !! k))
  | _ => Raise AttributeError
  end.

(** [p in s] on two [str]: substring test. *)
Fixpoint is_infix (p s : string) : bool :=
  String.prefix p s ||
  match s with
  | EmptyString => false
  | String _ s' => is_infix p s'
  end.

(** [k in v] for a [str] [k]. *)
Definition contains (k : string) (v : json) : outcome bool :=
  match v with
  | JDict d => Return (bool_decide (is_Some (d !! k)))
  | JStr s => Return (is_infix k s)
  | JList l => Return (existsb (fun x => eq_str x k) l)
  | _ => Raise TypeError
  end.

(** [str(z)] for an [int]. *)
Definition str_int (z : Z) : string := NilZero.string_of_int (Z.to_int z).

(** [str(b)] for a [bool]. *)
Definition str_bool (b : bool) : string := if b then "True" else "False".

(** [l[i]] on a list, with Python's negative indices. *)
Definition list_getitem {A} (l : list A) (i : Z) : outcome A :=
  let n := Z.of_nat (length l) in
  let j := if (i <? 0)%Z then (i + n)%Z else i in
  if (j <? 0)%Z || (n <=? j)%Z then Raise IndexError
  else match l !! Z.to_nat j with
       | Some x => Return x
       | None => Raise IndexError
       end.

(** [l[v]] where the index is a JSON value: [int] and [bool] are indices. *)
Definition list_getitem_json {A} (l : list A) (v : json) : outcome A :=
  match v with
  | JInt i => list_getitem l i
  | JBool b => list_getitem l (Z.b2z b)
  | _ => Raise TypeError
  end.

(** [format(z, "02d")] for an [int]: sign-aware zero padding to width 2. *)
Definition format_02d_int (z : Z) : string :=
  if (0 <=? z)%Z && (z <? 10)%Z then "0" ++ str_int z else str_int z.

(** [f"{v:02d}"] *)
Definition format_02d (v : json) : outcome string :=
  match v with
  | JInt z => Return (format_02d_int z)
  | JBool b => Return (format_02d_int (Z.b2z b))
  | JStr _ => Raise ValueError
  | _ => Raise TypeError
  end.

(** [s[:n]] on a [str]. *)
Fixpoint str_take (n : nat) (s : string) : string :=
  match n, s with
  | S n', String c s' => String c (str_take n' s')
  | _, _ => EmptyString
  end.

(** [v[:80]]: [str] and [list] can be sliced.  (A [dict] raises TypeError up
    to CPython 3.11.) *)
Definition slice_80 (v : json) : outcome json :=
  match v with
  | JStr s => Return (JStr (str_take 80 s))
  | JList l => Return (JList (take 80 l))
  | _ => Raise TypeError
  end.

(** [c.isspace()] on an ASCII character. *)
Definition isspace (c : ascii) : bool :=
  let n := nat_of_ascii c in
  ((9 <=? n) && (n <=? 13) || (28 <=? n) && (n <=? 32))%nat.

Fixpoint lstrip (s : string) : string :=
  match s with
  | String c s' => if isspace c then lstrip s' else s
  | EmptyString => EmptyString
  end.

Fixpoint rstrip (s : string) : string :=
  match s with
  | String c s' =>
      let r := rstrip s' in
      if isspace c && String.eqb r "" then EmptyString else String c r
  | EmptyString => EmptyString
  end.

(** [s.strip()] *)
Definition strip (s : string) : string := rstrip (lstrip s).

(** [s.split("\n")]: never empty. *)
Fixpoint split_lines (s : string) : list string :=
  match s with
  | EmptyString => [EmptyString]
  | String c s' =>
      if Ascii.eqb c "010"%char then EmptyString :: split_lines s'
      else match split_lines s' with
           | x :: xs => String c x :: xs
           | [] => [String c EmptyString]
           end
  end.

(** [l[-n:]]: the start index [-n] counts from the end when it is negative,
    and is clamped to the list. *)
Definition slice_from_neg {A} (n : Z) (l : list A) : list A :=
  let len := Z.of_nat (length l) in
  let start := (- n)%Z in
  let start := if (start <? 0)%Z then Z.max 0 (start + len) else Z.min start len in
  drop (Z.to_nat start) l.

(** [sep.join(parts)] *)
Definition join (sep : string) (parts : list string) : string :=
  String.concat sep parts.

End Py.

(** A dict display [{k1: v1, ...}] with distinct keys. *)
Definition mkdict (l : list (string * json)) : json := JDict (list_to_map l).

(** ** Module-level constants and the pure parts of the script *)

Definition LABEL_PREFIX : string := "com.joneshong.scheduler.".

(** ** Paths

    [pathlib] keeps a POSIX path as a root and a list of components, and
    [str] puts them together again.  A path is identified with that string. *)

Definition is_slash (c : ascii) : bool := Ascii.eqb c "/".

(** [s.split("/")] *)
Fixpoint split_slash (s : string) : list string :=
  match s with
  | EmptyString => [EmptyString]
  | String c s' =>
      if is_slash c then EmptyString :: split_slash s'
      else match split_slash s' with
           | x :: xs => String c x :: xs
           | [] => [String c EmptyString]
           end
  end.

(** The root [posixpath.splitroot] finds: exactly two leading slashes are
    kept, one slash, or three and more, give ["/"]. *)
Definition path_root (s : string) : string :=
  match s with
  | String c1 (String c2 (String c3 _)) =>
      if is_slash c1 then
        if is_slash c2 then (if is_slash c3 then "/" else "//") else "/"
      else ""
  | String c1 (String c2 EmptyString) =>
      if is_slash c1 then (if is_slash c2 then "//" else "/") else ""
  | String c1 EmptyString => if is_slash c1 then "/" else ""
  | EmptyString => ""
  end.

(** The components kept by [pathlib]: those that are neither empty nor
    ["."]. *)
Definition path_parts (s : string) : list string :=
  List.filter (fun x => negb (String.eqb x "" || String.eqb x "."))
              (split_slash s).

(** [str(Path(s))] *)
Definition Path (s : string) : string :=
  let root := path_root s in
  let tail := path_parts s in
  match root, tail with
  | EmptyString, [] => "."
  | _, _ => root ++ Py.join "/" tail
  end.

Fixpoint ends_slash (s : string) : bool :=
  match s with
  | EmptyString => false
  | String c EmptyString => is_slash c
  | String _ s' => ends_slash s'
  end.

Definition starts_slash (s : string) : bool :=
  match s with
  | String c _ => is_slash c
  | EmptyString => false
  end.

(** [posixpath.join(a, b)] *)
Definition posix_join (a b : string) : string :=
  if starts_slash b then b
  else if String.eqb a "" || ends_slash a then a ++ b
  else a ++ "/" ++ b.

(** [str(a / b)] for a path [a] and a string [b]: an absolute [b] replaces
    [a], and the result is parsed again, which drops the empty and the ["."]
    components of [b]. *)
Definition path_join (a b : string) : string := Path (posix_join a b).



(** The plist built by [add_job] (the block under [# Build plist]). *)
Definition build_plist (log_dir name command : string) (schedule : dict) : dict :=
  let label := LABEL_PREFIX ++ name in
  let plist : dict :=
    list_to_map
      [("Label", JStr label);
       ("ProgramArguments", JList [JStr "/bin/zsh"; JStr "-lc"; JStr command]);
       ("StandardOutPath", JStr (path_join log_dir (name ++ ".log")));
       ("StandardErrorPath", JStr (path_join log_dir (name ++ ".err")))] in
  let plist :=
    if Py.truthy (default JNull (schedule !! "interval")) then
      <["StartInterval" := default JNull (schedule !! "interval")]> plist
    else if Py.truthy (default JNull (schedule !! "calendar")) then
      <["StartCalendarInterval" := default JNull (schedule !! "calendar")]> plist
    else plist in
  if Py.truthy (default (JBool false) (schedule !! "run_at_load")) then
    <["RunAtLoad" := JBool true]> plist
  else plist.

(** [any(e["name"] == name for e in entries)]: stops at the first match. *)
Fixpoint any_name_eq (name : string) (entries : list json) : outcome bool :=
  match entries with
  | [] => Return false
  | e :: es =>
      v ← Py.getitem e "name";
      if Py.eq_str v name then Return true else any_name_eq name es
  end.

(** [next((e for e in entries if e["name"] == name), None)], together with
    the position of the entry found: the entry is an element of [entries], and
    assigning to one of its keys changes the list at that position. *)
Fixpoint next_by_name (name : string) (entries : list json) (i : nat)
  : outcome (option (nat * json)) :=
  match entries with
  | [] => Return None
  | e :: es =>
      v ← Py.getitem e "name";
      if Py.eq_str v name then Return (Some (i, e)) else next_by_name name es (S i)
  end.

(** [[e for e in entries if e["name"] != name]] *)
Fixpoint filter_name_ne (name : string) (entries : list json) : outcome (list json) :=
  match entries with
  | [] => Return []
  | e :: es =>
      v ← Py.getitem e "name";
      rest ← filter_name_ne name es;
      Return (if Py.eq_str v name then rest else e :: rest)
  end.

Definition days : list string := ["Sun"; "Mon"; "Tue"; "Wed"; "Thu"; "Fri"; "Sat"].

(** The interval branch of [list_jobs]: [mins = v // 60], then one of the two
    f-strings.  [//] is defined between an [int] (or a [bool]) and 60 only. *)
Definition interval_desc (v : json) : outcome string :=
  match v with
  | JInt n =>
      let mins := (n / 60)%Z in
      Return (if (0 <? mins)%Z then "every " ++ Py.str_int mins ++ " min"
              else "every " ++ Py.str_int n ++ "s")
  | JBool b =>
      let mins := (Z.b2z b / 60)%Z in
      Return (if (0 <? mins)%Z then "every " ++ Py.str_int mins ++ " min"
              else "every " ++ Py.str_bool b ++ "s")
  | _ => Raise TypeError
  end.

(** The calendar branch of [list_jobs]. *)
Definition calendar_desc (cal : json) : outcome string :=
  has_weekday ← Py.contains "Weekday" cal;
  parts ← (if has_weekday : bool then
             wd ← Py.getitem cal "Weekday";
             d ← Py.list_getitem_json days wd;
             Return [d]
           else Return []);
  has_hour ← Py.contains "Hour" cal;
  parts ← (if has_hour : bool then
             h ← Py.getitem cal "Hour";
             hh ← Py.format_02d h;
             m ← Py.get cal "Minute" (JInt 0);
             mm ← Py.format_02d m;
             Return (app parts [hh ++ ":" ++ mm])
           else Return parts);
  let joined := Py.join " " parts in
  Return (if Py.truthy (JStr joined) then joined else "calendar").

(** [schedule_desc] as computed by the loop of [list_jobs] from
    [s = e.get("schedule", {})]. *)
Definition schedule_desc (s : json) : outcome string :=
  i ← Py.get s "interval" JNull;
  if Py.truthy i then
    v ← Py.getitem s "interval";
    interval_desc v
  else
    c ← Py.get s "calendar" JNull;
    if Py.truthy c then
      cal ← Py.getitem s "calendar";
      calendar_desc cal
    else Return "".

(** The body of the loop of [list_jobs]: the object appended to [output]. *)
Definition render_entry (e : json) : outcome json :=
  s ← Py.get e "schedule" (JDict ∅);
  desc ← schedule_desc s;
  name ← Py.getitem e "name";
  enabled ← Py.get e "enabled" (JBool true);
  command ← Py.getitem e "command";
  command80 ← Py.slice_80 command;
  description ← Py.get e "description" (JStr "");
  Return (mkdict [("name", name);
                  ("enabled", enabled);
                  ("schedule", JStr desc);
                  ("command", command80);
                  ("description", description)]).

(** ** The world the script runs in *)

(** What a run leaves behind outside the files: requests to the daemon and
    their return codes, writes and deletions, and what is printed. *)
Inductive Event :=
| EvLaunchctl (args : list string) (returncode : Z)
| EvWritePlist (path : string)
| EvUnlink (path : string)
| EvWriteRegistry (entries : list json)
| EvPrint (j : json).

(** A definition file: [open(plist_file, "wb")] creates it empty, and
    [plistlib.dump] fills it unless it raises. *)
Inductive PlistFile :=
| Truncated
| Dumped (plist : dict).

(** What the script asks of its host: [launchctl], the clock, [plistlib] and
    the environment.  Nothing is assumed about what they answer. *)
Record Env (Host : Type) := mkEnv {
  (* [subprocess.run(["launchctl"] + args)]: the return code and the host
     afterwards *)
  launchctl : list string -> Host -> Z * Host;
  (* [datetime.now().isoformat()] *)
  datetime_now : Host -> string;
  (* [plistlib.dump(plist, f)]: [None] when the plist is written, the
     exception otherwise *)
  plistlib_dump : dict -> option exn;
  (* [Path.home()] *)
  home : string;
  (* [os.environ.get("CLAUDE_OUTPUTS_DIR")] *)
  CLAUDE_OUTPUTS_DIR : option string
}.
Arguments launchctl {Host} _ _ _.
Arguments datetime_now {Host} _ _.
Arguments plistlib_dump {Host} _ _.
Arguments home {Host} _.
Arguments CLAUDE_OUTPUTS_DIR {Host} _.

Section Scheduler.

Context {Host : Type} (env : Env Host).

Definition _outputs_root : string :=
  Path (default (path_join (path_join (home env) "Claude") "skills")
                (CLAUDE_OUTPUTS_DIR env)).
Definition REGISTRY_DIR : string := path_join _outputs_root "scheduler".
Definition REGISTRY_FILE : string := path_join REGISTRY_DIR "registry.json".
Definition LAUNCH_AGENTS_DIR : string :=
  path_join (path_join (home env) "Library") "LaunchAgents".

Record World := mkWorld {
  registry_file : option (list json);   (* the content of REGISTRY_FILE, if it exists *)
  plist_files : gmap string PlistFile;  (* the definition files, by path *)
  log_files : gmap string string;       (* the log files, by path *)
  dirs : gset string;                   (* the directories that exist *)
  host : Host;
  trace : list Event
}.

Definition M (A : Type) : Type := World -> outcome A * World.

#[export] Instance M_ret : MRet M := fun A a w => (Return a, w).
#[export] Instance M_bind : MBind M := fun A B f m w =>
  match m w with
  | (Return a, w') => f a w'
  | (Raise e, w') => (Raise e, w')
  end.

(** A pure computation inside [M]: its exception propagates. *)
Definition lift {A} (o : outcome A) : M A := fun w => (o, w).

Definition emit (ev : Event) : M unit := fun w =>
  (Return tt,
   mkWorld (registry_file w) (plist_files w) (log_files w) (dirs w) (host w)
           (trace w ++ [ev])).

(** [print(json.dumps(j))] *)
Definition print (j : json) : M unit := emit (EvPrint j).

(** [p.mkdir(exist_ok=True)] *)
Definition mkdir (p : string) : M unit := fun w =>
  (Return tt,
   mkWorld (registry_file w) (plist_files w) (log_files w) ({[p]} ∪ dirs w)
           (host w) (trace w)).

Definition run_launchctl (args : list string) : M Z := fun w =>
  let '(rc, h) := launchctl env args (host w) in
  (Return rc,
   mkWorld (registry_file w) (plist_files w) (log_files w) (dirs w) h
           (trace w ++ [EvLaunchctl args rc])).

Definition now : M string := fun w => (Return (datetime_now env (host w)), w).

(** [pfile.exists()] on a definition file. *)
Definition plist_exists (p : string) : M bool := fun w =>
  (Return (bool_decide (is_Some (plist_files w !! p))), w).

Definition set_plist (p : string) (f : PlistFile) : M unit := fun w =>
  (Return tt,
   mkWorld (registry_file w) (<[p := f]> (plist_files w)) (log_files w) (dirs w)
           (host w) (trace w)).

(** [with open(p, "wb") as f: plistlib.dump(plist, f)].  [open] truncates the
    file and is taken to succeed: the directory of a definition file was made
    by [ensure_dirs].  A name that holds ['/'] puts the file in a directory
    below it, which nothing makes; the runs in which [open] raises for that
    reason are outside the model. *)
Definition write_plist (p : string) (plist : dict) : M unit :=
  set_plist p Truncated;;
  emit (EvWritePlist p);;
  match plistlib_dump env plist with
  | Some e => lift (Raise e)
  | None => set_plist p (Dumped plist)
  end.

(** [pfile.unlink()] *)
Definition unlink (p : string) : M unit :=
  (fun w =>
     (Return tt,
      mkWorld (registry_file w) (delete p (plist_files w)) (log_files w) (dirs w)
              (host w) (trace w)));;
  emit (EvUnlink p).

(** [f.exists()] and [f.read_text()] on a log file. *)
Definition read_log (p : string) : M (option string) := fun w =>
  (Return (log_files w !! p), w).

(** ** The functions of the script *)

Definition ensure_dirs : M unit :=
  mkdir REGISTRY_DIR;;
  mkdir LAUNCH_AGENTS_DIR.

(** The entries [load_registry] returns: those of the file, none when the
    file does not exist. *)
Definition registry (w : World) : list json :=
  match registry_file w with
  | Some entries => entries
  | None => []
  end.

Definition load_registry : M (list json) := fun w => (Return (registry w), w).

Definition save_registry (entries : list json) : M unit :=
  ensure_dirs;;
  (fun w =>
     (Return tt,
      mkWorld (Some entries) (plist_files w) (log_files w) (dirs w) (host w)
              (trace w)));;
  emit (EvWriteRegistry entries).

Definition plist_path (name : string) : string :=
  path_join LAUNCH_AGENTS_DIR (LABEL_PREFIX ++ name ++ ".plist").

Definition duplicate_error (name : string) : json :=
  mkdict [("error", JStr ("Job '" ++ name ++
            "' already exists. Remove it first or use a different name."))].

(** The record [add_job] appends to the registry. *)
Definition job_entry (name command : string) (schedule : dict)
    (description plist_file created : string) : json :=
  mkdict [("name", JStr name);
          ("label", JStr (LABEL_PREFIX ++ name));
          ("command", JStr command);
          ("schedule", JDict schedule);
          ("description", JStr description);
          ("plist", JStr plist_file);
          ("enabled", JBool true);
          ("created", JStr created)].

(** The object [add_job] prints when the job is added. *)
Definition added_result (name plist_file : string) (returncode : Z) (schedule : dict)
  : json :=
  mkdict [("status", JStr "added");
          ("name", JStr name);
          ("plist", JStr plist_file);
          ("launchctl", JBool (returncode =? 0)%Z);
          ("schedule", JDict schedule)].

Definition add_job (name command : string) (schedule : dict) (description : string)
  : M unit :=
  ensure_dirs;;
  entries ← load_registry;
  dup ← lift (any_name_eq name entries);
  if dup : bool then print (duplicate_error name)
  else
    let log_dir := path_join REGISTRY_DIR "logs" in
    mkdir log_dir;;
    let plist := build_plist log_dir name command schedule in
    let plist_file := plist_path name in
    write_plist plist_file plist;;
    returncode ← run_launchctl ["load"; plist_file];
    created ← now;
    let entry := job_entry name command schedule description plist_file created in
    save_registry (entries ++ [entry])%list;;
    print (added_result name plist_file returncode schedule).

Definition not_found (name : string) : json :=
  mkdict [("error", JStr ("Job '" ++ name ++ "' not found."))].

Definition status_result (status name : string) : json :=
  mkdict [("status", JStr status); ("name", JStr name)].

Definition remove_job (name : string) : M unit :=
  entries ← load_registry;
  entry ← lift (next_by_name name entries 0);
  match entry with
  | None => print (not_found name)
  | Some (_, e) =>
      if negb (Py.truthy e) then print (not_found name)
      else
        let pfile := plist_path name in
        ex ← plist_exists pfile;
        (if ex : bool then
           run_launchctl ["unload"; pfile];;
           unlink pfile
         else mret tt);;
        entries' ← lift (filter_name_ne name entries);
        save_registry entries';;
        print (status_result "removed" name)
  end.

(** [enable_job] and [disable_job] differ in the request to the daemon and in
    the flag they store. *)
Definition set_enabled (verb status : string) (flag : bool) (name : string) : M unit :=
  entries ← load_registry;
  entry ← lift (next_by_name name entries 0);
  match entry with
  | None => print (not_found name)
  | Some (i, e) =>
      if negb (Py.truthy e) then print (not_found name)
      else
        let pfile := plist_path name in
        ex ← plist_exists pfile;
        (if ex : bool then
           run_launchctl [verb; pfile];;
           mret tt
         else mret tt);;
        e' ← lift (Py.setitem e "enabled" (JBool flag));
        save_registry (<[i := e']> entries);;
        print (status_result status name)
  end.

Definition enable_job (name : string) : M unit :=
  set_enabled "load" "enabled" true name.

Definition disable_job (name : string) : M unit :=
  set_enabled "unload" "disabled" false name.

(** The world after the request [launchctl list]. *)
Definition after_launchctl_list (w : World) : World :=
  mkWorld (registry_file w) (plist_files w) (log_files w) (dirs w)
          (launchctl env ["list"] (host w)).2
          (trace w ++ [EvLaunchctl ["list"] (launchctl env ["list"] (host w)).1]).

(** The set [loaded_labels] that [list_jobs] builds from the answer of
    [launchctl list] is never read, so only the request is kept. *)
Definition list_jobs : M unit :=
  entries ← load_registry;
  if negb (Py.truthy (JList entries)) then
    print (mkdict [("jobs", JList []); ("count", JInt 0)])
  else
    run_launchctl ["list"];;
    output ← lift (for_each render_entry entries);
    print (mkdict [("jobs", JList output);
                   ("count", JInt (Z.of_nat (length output)))]).

(** The lines of a log file that [show_logs] keeps. *)
Definition log_tail (lines : Z) (text : string) : json :=
  let content := Py.split_lines (Py.strip text) in
  JList (JStr <$> Py.slice_from_neg lines content).

Definition show_logs (name : string) (lines : Z) : M unit :=
  let log_file := path_join (path_join REGISTRY_DIR "logs") (name ++ ".log") in
  let err_file := path_join (path_join REGISTRY_DIR "logs") (name ++ ".err") in
  let result : dict := ∅ in
  out ← read_log log_file;
  let result :=
    match out with
    | Some text => <["stdout" := log_tail lines text]> result
    | None => result
    end in
  err ← read_log err_file;
  let result :=
    match err with
    | Some text => <["stderr" := log_tail lines text]> result
    | None => result
    end in
  let result :=
    if negb (Py.truthy (JDict result)) then
      <["message" := JStr ("No logs found for '" ++ name ++ "'")]> result
    else result in
  print (JDict result).

End Scheduler.

(** ** Command lines *)

(** The commands [__main__] dispatches on, with their parsed arguments. *)
Inductive command :=
| CmdAdd (name cmdline : string) (schedule : dict) (description : string)
| CmdRemove (name : string)
| CmdEnable (name : string)
| CmdDisable (name : string)
| CmdList
| CmdLogs (name : string) (lines : Z).

Definition main {Host} (env : Env Host) (c : command) : M unit :=
  match c with
  | CmdAdd name cmdline schedule description =>
      add_job env name cmdline schedule description
  | CmdRemove name => remove_job env name
  | CmdEnable name => enable_job env name
  | CmdDisable name => disable_job env name
  | CmdList => list_jobs env
  | CmdLogs name lines => show_logs env name lines
  end.

(** The worlds after each of a sequence of invocations.  An invocation that
    ends in an exception leaves the world as it was when the exception was
    raised. *)
Fixpoint run {Host} (env : Env Host) (cs : list command) (w : World) : list World :=
  match cs with
  | [] => []
  | c :: cs' => let w' := (main env c w).2 in w' :: run env cs' w'
  end.

(** ** Names in the registry *)

(** The name of a record: the [str] under its key ["name"]. *)
Definition record_name (e : json) : option string :=
  match e with
  | JDict d => match d !! "name" with Some (JStr s) => Some s | _ => None end
  | _ => None
  end.

Definition names (entries : list json) : list string := omap record_name entries.

(** No two records of the registry share a name. *)
Definition unique_names {Host} (w : @World Host) : Prop := NoDup (names (registry w)).

(** An entry [e] for which [e["name"]] is defined. *)
Definition has_name (e : json) : Prop :=
  match e with
  | JDict d => is_Some (d !! "name")
  | _ => False
  end.

(** ** What was printed *)

(** The objects printed along a trace, in order. *)
Definition printed (t : list Event) : list json :=
  omap (fun ev => match ev with EvPrint j => Some j | _ => None end) t.

(** ** Sample data *)

Module Sample.

(** A daemon that answers every request with the given return code. *)
Definition env_rc (rc : Z) : Env unit :=
  mkEnv unit (fun _ h => (rc, h)) (fun _ => "2026-01-05T09:00:00")
        (fun _ => None) "/Users/jones" None.

Definition empty_world : @World unit := mkWorld None ∅ ∅ ∅ tt [].

Definition backup_entry (enabled : bool) : json :=
  mkdict [("name", JStr "backup");
          ("label", JStr "com.joneshong.scheduler.backup");
          ("command", JStr "rsync -a ~/Documents /Volumes/Backup");
          ("schedule", mkdict [("interval", JInt 3600)]);
          ("description", JStr "");
          ("plist", JStr "/Users/jones/Library/LaunchAgents/com.joneshong.scheduler.backup.plist");
          ("enabled", JBool enabled);
          ("created", JStr "2026-01-05T09:00:00")].

Definition backup_plist_path : string :=
  "/Users/jones/Library/LaunchAgents/com.joneshong.scheduler.backup.plist".

(** The registry holds [backup]; whether its definition file is on disk is
    the argument. *)
Definition backup_world (enabled on_disk : bool) : @World unit :=
  mkWorld (Some [backup_entry enabled])
          (if on_disk then {[ backup_plist_path := Dumped ∅ ]} else ∅)
          ∅ ∅ tt [].

(** Only the stdout log of [backup] exists, with three lines. *)
Definition logs_world : @World unit :=
  mkWorld None ∅
          {[ "/Users/jones/Claude/skills/scheduler/logs/backup.log" :=
               "one" ++ String "010" ("two" ++ String "010" ("three" ++ String "010" "")) ]}
          ∅ tt [].





(** A host on which [plistlib.dump] raises for every plist. *)
Definition env_dump_fails : Env unit :=
  mkEnv unit (fun _ h => (0%Z, h)) (fun _ => "2026-01-05T09:00:00")
        (fun _ => Some TypeError) "/Users/jones" None.

(** The registry holds [backup] followed by an entry without a name; the
    definition file of [backup] is on disk. *)
Definition broken_world : @World unit :=
  mkWorld (Some [backup_entry true; JDict ∅])
          {[ backup_plist_path := Dumped ∅ ]} ∅ ∅ tt [].

End Sample.

(** ** Rendering a schedule *)

Section Rendering.

Lemma truthy_pos_int (n : Z) : (0 < n)%Z -> Py.truthy (JInt n) = true.
Proof. intros Hn. simpl. destruct (Z.eqb_spec n 0); [lia | reflexivity]. Qed.

Lemma minutes_positive_iff (n : Z) : (0 <? n / 60)%Z = negb (n <? 60)%Z.
Proof.
  destruct (Z.ltb_spec n 60) as [Hlt | Hge]; simpl.
  - apply Z.ltb_ge. destruct (Z_lt_le_dec n 0) as [Hneg | Hnn].
    + assert (n / 60 < 0)%Z by (apply Z.div_lt_upper_bound; lia). lia.
    + rewrite Z.div_small; lia.
  - apply Z.ltb_lt. apply Z.div_str_pos. lia.
Qed.

(** The interval branch is taken whenever the value under ["interval"] is
    truthy, whatever else the schedule holds. *)
Lemma schedule_desc_interval (s : dict) (v : json) :
  s !! "interval" = Some v -> Py.truthy v = true ->
  schedule_desc (JDict s) = interval_desc v.
Proof.
  intros Hs Hv. unfold schedule_desc. simpl. rewrite Hs. simpl. rewrite Hv.
  reflexivity.
Qed.

(** C6, as the code has it: the summary of a positive interval of [n] seconds
    counts whole minutes, rounded down, from one minute on, and seconds
    below one minute. *)
Theorem interval_summary (s : dict) (n : Z) :
  s !! "interval" = Some (JInt n) -> (0 < n)%Z ->
  schedule_desc (JDict s) =
    Return (if (n <? 60)%Z then "every " ++ Py.str_int n ++ "s"
            else "every " ++ Py.str_int (n / 60) ++ " min").
Proof.
  intros Hs Hn.
  rewrite (schedule_desc_interval s (JInt n) Hs (truthy_pos_int n Hn)).
  unfold interval_desc. rewrite minutes_positive_iff.
  destruct (n <? 60)%Z; reflexivity.
Qed.

End Rendering.

Lemma interval_summary_witness :
  (0 < 3600)%Z /\
  schedule_desc (mkdict [("interval", JInt 3600)]) = Return "every 60 min".
Proof.
  split; [lia |].
  apply (interval_summary (list_to_map [("interval", JInt 3600)]) 3600);
    [reflexivity | lia].
Defined.

(** C6 as stated fails: 90 seconds is not a whole number of minutes, and it
    is summarised in minutes all the same. *)
Lemma interval_summary_counterexample :
  (90 mod 60 <> 0)%Z /\
  schedule_desc (mkdict [("interval", JInt 90)]) = Return "every 1 min" /\
  schedule_desc (mkdict [("interval", JInt 90)]) <> Return "every 90s".
Proof.
  split; [discriminate |].
  split; [vm_compute; reflexivity | intros H; vm_compute in H; discriminate].
Qed.

(** Splits a disjunction of equations [x = k] and substitutes each. *)
Ltac split_cases H :=
  repeat (destruct H as [-> | H]); try subst.

Section Calendar.

Lemma truthy_dict_lookup (d : dict) (k : string) (v : json) :
  d !! k = Some v -> Py.truthy (JDict d) = true.
Proof.
  intros Hk. simpl. rewrite bool_decide_eq_false_2; [reflexivity |].
  intros ->. rewrite lookup_empty in Hk. discriminate.
Qed.

(** The calendar branch is taken when the value under ["interval"] is falsy
    or absent and the one under ["calendar"] is truthy. *)
Lemma schedule_desc_calendar (s : dict) (cal : json) :
  Py.truthy (default JNull (s !! "interval")) = false ->
  s !! "calendar" = Some cal -> Py.truthy cal = true ->
  schedule_desc (JDict s) = calendar_desc cal.
Proof.
  intros Hi Hc Ht. unfold schedule_desc. simpl. rewrite Hi, Hc. simpl.
  rewrite Ht. reflexivity.
Qed.



(** C7, as the code has it: the calendar keys are launchd's, [Weekday],
    [Hour] and [Minute].  A weekday from 0 (Sunday) to 6 renders as its
    three-letter name, followed by the hour and the minute on two digits, the
    minute being 0 when absent. *)
Theorem calendar_summary (s cal : dict) (d h : Z) (m : option Z) :
  Py.truthy (default JNull (s !! "interval")) = false ->
  s !! "calendar" = Some (JDict cal) ->
  cal !! "Weekday" = Some (JInt d) -> (0 <= d < 7)%Z ->
  cal !! "Hour" = Some (JInt h) ->
  cal !! "Minute" = JInt <$> m ->
  schedule_desc (JDict s) =
    Return (nth (Z.to_nat d) days "" ++ " " ++
            Py.format_02d_int h ++ ":" ++ Py.format_02d_int (default 0%Z m)).
Proof.
  intros Hi Hc Hd Hrange Hh Hm.
  rewrite (schedule_desc_calendar s (JDict cal) Hi Hc (truthy_dict_lookup _ _ _ Hd)).
  unfold calendar_desc. simpl. rewrite Hd, Hh, Hm. simpl.
  assert (Hmin : Py.format_02d (default (JInt 0) (JInt <$> m))
                 = Return (Py.format_02d_int (default 0%Z m))).
  { destruct m; reflexivity. }
  rewrite Hmin.
  assert (Hcases : (d = 0 \/ d = 1 \/ d = 2 \/ d = 3 \/ d = 4 \/ d = 5 \/ d = 6)%Z)
    by lia.
  clear Hrange Hd. split_cases Hcases; reflexivity.
Qed.

End Calendar.

Lemma calendar_summary_witness :
  schedule_desc
    (mkdict [("calendar",
              mkdict [("Weekday", JInt 1); ("Hour", JInt 10); ("Minute", JInt 0)])])
  = Return "Mon 10:00".
Proof.
  apply (calendar_summary
           (list_to_map
              [("calendar",
                mkdict [("Weekday", JInt 1); ("Hour", JInt 10); ("Minute", JInt 0)])])
           (list_to_map [("Weekday", JInt 1); ("Hour", JInt 10); ("Minute", JInt 0)])
           1 10 (Some 0%Z));
    first [ reflexivity | lia ].
Defined.

(** C7 as stated fails: with the keys in lower case neither test of the
    calendar branch finds its key, and the summary is the fallback. *)
Lemma calendar_summary_counterexample :
  schedule_desc
    (mkdict [("calendar",
              mkdict [("weekday", JInt 1); ("hour", JInt 10); ("minute", JInt 0)])])
  = Return "calendar" /\
  schedule_desc
    (mkdict [("calendar",
              mkdict [("weekday", JInt 1); ("hour", JInt 10); ("minute", JInt 0)])])
  <> Return "Mon 10:00".
Proof.
  split; [vm_compute; reflexivity | intros H; vm_compute in H; discriminate].
Qed.

(** ** Listing *)

Section Listing.

Context {Host : Type} (env : Env Host).


(** [list_jobs] on a registry that is not empty: the daemon is queried, and
    the entries are rendered in order. *)
Lemma list_jobs_nonempty (w : World) :
  registry w <> [] ->
  list_jobs env w =
    match for_each render_entry (registry w) with
    | Raise e => (Raise e, after_launchctl_list env w)
    | Return output =>
        print (mkdict [("jobs", JList output);
                       ("count", JInt (Z.of_nat (length output)))])
              (after_launchctl_list env w)
    end.
Proof.
  intros Hne. unfold list_jobs, after_launchctl_list, print, emit, mbind, M_bind, load_registry,
    run_launchctl, lift.
  destruct (registry w) as [| e es] eqn:Hreg; [congruence |]. simpl.
  destruct (launchctl env ["list"] (host w)) as [rc h]. simpl.
  destruct (for_each render_entry (e :: es)); reflexivity.
Qed.



End Listing.



(** ** Translating a schedule *)

Section Translation.

(** The interval branch of the translation is taken whenever the value under
    ["interval"] is truthy: no calendar key is written then. *)
Lemma build_plist_interval (log_dir name command : string) (schedule : dict) (v : json) :
  schedule !! "interval" = Some v -> Py.truthy v = true ->
  build_plist log_dir name command schedule !! "StartInterval" = Some v /\
  build_plist log_dir name command schedule !! "StartCalendarInterval" = None.
Proof.
  intros Hi Hv. unfold build_plist. rewrite Hi. simpl. rewrite Hv.
  destruct (Py.truthy (default (JBool false) (schedule !! "run_at_load")));
    split; reflexivity.
Qed.

Lemma build_plist_dom (log_dir name command : string) (schedule : dict) :
  dom (build_plist log_dir name command schedule) ⊆
    {[ "Label"; "ProgramArguments"; "StandardOutPath"; "StandardErrorPath";
       "StartInterval"; "StartCalendarInterval"; "RunAtLoad" ]}.
Proof.
  unfold build_plist.
  repeat match goal with
         | |- context [if ?b then _ else _] => destruct b
         end;
    simpl list_to_map; rewrite !dom_insert_L, dom_empty_L;
    apply elem_of_subseteq; intros k;
    rewrite !elem_of_union, !elem_of_singleton, elem_of_empty; tauto.
Qed.

(** C4: when the schedule holds a positive interval and a calendar, the
    definition built for the job has [StartInterval], set to the interval,
    and no [StartCalendarInterval]; its other keys are the label, the
    command, the two log paths and possibly [RunAtLoad]. *)
Theorem interval_takes_precedence
    (log_dir name command : string) (schedule : dict) (n : Z) (cal : json) :
  schedule !! "interval" = Some (JInt n) -> (0 < n)%Z ->
  schedule !! "calendar" = Some cal ->
  build_plist log_dir name command schedule !! "StartInterval" = Some (JInt n) /\
  build_plist log_dir name command schedule !! "StartCalendarInterval" = None /\
  dom (build_plist log_dir name command schedule) ⊆
    {[ "Label"; "ProgramArguments"; "StandardOutPath"; "StandardErrorPath";
       "StartInterval"; "RunAtLoad" ]}.
Proof.
  intros Hi Hn _.
  destruct (build_plist_interval log_dir name command schedule (JInt n) Hi
              (truthy_pos_int n Hn)) as [Hstart Hcal].
  split; [exact Hstart |]. split; [exact Hcal |].
  intros k Hk. pose proof (build_plist_dom log_dir name command schedule k Hk) as Hdom.
  assert (k <> "StartCalendarInterval").
  { intros ->. apply elem_of_dom in Hk. rewrite Hcal in Hk. destruct Hk. discriminate. }
  rewrite !elem_of_union, !elem_of_singleton in Hdom.
  rewrite !elem_of_union, !elem_of_singleton. tauto.
Qed.

End Translation.

Lemma interval_takes_precedence_witness :
  let schedule : dict :=
    list_to_map [("interval", JInt 60); ("calendar", mkdict [("hour", JInt 9)])] in
  let plist :=
    build_plist "/Users/jones/Claude/skills/scheduler/logs" "backup" "rsync" schedule in
  plist !! "StartInterval" = Some (JInt 60) /\
  plist !! "StartCalendarInterval" = None /\
  dom plist ⊆
    {[ "Label"; "ProgramArguments"; "StandardOutPath"; "StandardErrorPath";
       "StartInterval"; "RunAtLoad" ]}.
Proof.
  intros schedule plist.
  apply (interval_takes_precedence "/Users/jones/Claude/skills/scheduler/logs"
           "backup" "rsync" schedule 60 (mkdict [("hour", JInt 9)]));
    first [ reflexivity | lia ].
Defined.

(** ** Looking a name up in the registry *)

#[local] Open Scope list_scope.
#[local] Arguments names : simpl never.

Section Lookup.

Lemma getitem_has_name (e : json) :
  has_name e -> exists v, Py.getitem e "name" = Return v.
Proof.
  destruct e as [| | | | | d]; simpl; try contradiction.
  intros [v Hv]. rewrite Hv. eauto.
Qed.

Lemma has_name_getitem (e : json) (v : json) :
  Py.getitem e "name" = Return v -> has_name e.
Proof.
  destruct e as [| | | | | d]; simpl; try discriminate.
  destruct (d !! "name"); [eauto | discriminate].
Qed.

Lemma eq_str_record_name (e v : json) (name : string) :
  Py.getitem e "name" = Return v ->
  Py.eq_str v name = true <-> record_name e = Some name.
Proof.
  destruct e as [| | | | | d]; simpl; try discriminate.
  destruct (d !! "name") as [x |]; [| discriminate].
  intros [= ->]. destruct v; simpl; try (split; discriminate).
  rewrite String.eqb_eq. split; congruence.
Qed.

Lemma names_cons (e : json) (es : list json) :
  names (e :: es) =
    match record_name e with
    | Some n => n :: names es
    | None => names es
    end.
Proof. reflexivity. Qed.

Lemma names_app (l1 l2 : list json) : names (l1 ++ l2) = names l1 ++ names l2.
Proof. apply omap_app. Qed.

(** The duplicate check of [add_job] answers [False] exactly on a registry
    whose entries all have a name, none of them the one looked for. *)
Lemma any_name_eq_false (name : string) (entries : list json) :
  any_name_eq name entries = Return false <->
  Forall has_name entries /\ name ∉ names entries.
Proof.
  induction entries as [| e es IH]; simpl.
  - split; [intros _; split; [constructor | apply not_elem_of_nil] | reflexivity].
  - destruct (Py.getitem e "name") as [v | err] eqn:Hget; simpl.
    + pose proof (eq_str_record_name e v name Hget) as Heq.
      rewrite names_cons.
      destruct (Py.eq_str v name) eqn:Hv.
      * split; [discriminate |]. intros [_ Hnot].
        destruct Heq as [Heq _]. rewrite (Heq eq_refl) in Hnot.
        exfalso. apply Hnot. left.
      * rewrite IH. split.
        -- intros [Hall Hnot]. split; [constructor; eauto using has_name_getitem |].
           destruct (record_name e) as [n |] eqn:Hn; [| exact Hnot].
           apply not_elem_of_cons. split; [| exact Hnot].
           intros ->. destruct Heq as [_ Heq]. specialize (Heq eq_refl). discriminate.
        -- intros [Hall Hnot]. inversion Hall; subst. split; [assumption |].
           destruct (record_name e); [| exact Hnot].
           apply not_elem_of_cons in Hnot. tauto.
    + split; [discriminate |]. intros [Hall _]. inversion Hall as [| ? ? He]; subst.
      destruct (getitem_has_name e He) as [v Hv]. congruence.
Qed.

(** It answers [True] on a registry whose entries all have a name, one of
    them the one looked for. *)
Lemma any_name_eq_true (name : string) (entries : list json) :
  Forall has_name entries -> name ∈ names entries ->
  any_name_eq name entries = Return true.
Proof.
  induction entries as [| e es IH]; simpl; intros Hall Hin.
  - apply elem_of_nil in Hin. destruct Hin.
  - inversion Hall as [| ? ? He Hes]; subst.
    destruct (getitem_has_name e He) as [v Hv]. rewrite Hv. simpl.
    pose proof (eq_str_record_name e v name Hv) as Heq.
    destruct (Py.eq_str v name) eqn:Hvn; [reflexivity |].
    apply IH; [assumption |]. rewrite names_cons in Hin.
    destruct (record_name e) as [n |] eqn:Hn; [| exact Hin].
    apply elem_of_cons in Hin. destruct Hin as [-> | Hin]; [| exact Hin].
    destruct Heq as [_ Heq]. specialize (Heq eq_refl). discriminate.
Qed.

(** [next] finds nothing on a registry whose entries all have a name, none
    of them the one looked for. *)
Lemma next_by_name_none (name : string) (entries : list json) (i : nat) :
  Forall has_name entries -> name ∉ names entries ->
  next_by_name name entries i = Return None.
Proof.
  revert i. induction entries as [| e es IH]; simpl; intros i Hall Hnot.
  - reflexivity.
  - inversion Hall as [| ? ? He Hes]; subst.
    destruct (getitem_has_name e He) as [v Hv]. rewrite Hv. simpl.
    pose proof (eq_str_record_name e v name Hv) as Heq.
    rewrite names_cons in Hnot.
    destruct (Py.eq_str v name) eqn:Hvn.
    + destruct Heq as [Heq _]. rewrite (Heq eq_refl) in Hnot.
      exfalso. apply Hnot. left.
    + apply IH; [assumption |].
      destruct (record_name e); [| exact Hnot].
      apply not_elem_of_cons in Hnot. tauto.
Qed.

(** What [next] finds is a dict of the registry, at the position returned,
    whose name is the one looked for. *)
Lemma next_by_name_some (name : string) (entries : list json) (i k : nat) (e : json) :
  next_by_name name entries i = Return (Some (k, e)) ->
  exists d, e = JDict d /\ d !! "name" = Some (JStr name) /\
            i <= k /\ entries !! (k - i) = Some e.
Proof.
  revert i. induction entries as [| x es IH]; simpl; intros i Hnext.
  - discriminate.
  - destruct (Py.getitem x "name") as [v | err] eqn:Hget; simpl in Hnext;
      [| discriminate].
    destruct (Py.eq_str v name) eqn:Hv.
    + injection Hnext as <- <-.
      destruct x as [| | | | | d]; simpl in Hget; try discriminate.
      exists d. destruct (d !! "name") as [y |] eqn:Hy; [| discriminate].
      injection Hget as ->. destruct v; simpl in Hv; try discriminate.
      apply String.eqb_eq in Hv. subst.
      repeat split; [lia |]. rewrite Nat.sub_diag. reflexivity.
    + destruct (IH (S i) Hnext) as (d & -> & Hd & Hle & Hlook).
      exists d. repeat split; [assumption | lia |].
      replace (k - i) with (S (k - S i)) by lia. exact Hlook.
Qed.

(** On a registry whose entries all have a name, one of them the one looked
    for, [next] finds a record. *)
Lemma next_by_name_found (name : string) (entries : list json) (i : nat) :
  Forall has_name entries -> name ∈ names entries ->
  exists k e, next_by_name name entries i = Return (Some (k, e)).
Proof.
  revert i. induction entries as [| x es IH]; simpl; intros i Hall Hin.
  - apply elem_of_nil in Hin. destruct Hin.
  - inversion Hall as [| ? ? He Hes]; subst.
    destruct (getitem_has_name x He) as [v Hv]. rewrite Hv. simpl.
    pose proof (eq_str_record_name x v name Hv) as Heq.
    destruct (Py.eq_str v name) eqn:Hvn; [eauto |].
    apply IH; [assumption |]. rewrite names_cons in Hin.
    destruct (record_name x) as [n |] eqn:Hn; [| exact Hin].
    apply elem_of_cons in Hin. destruct Hin as [-> | Hin]; [| exact Hin].
    destruct Heq as [_ Heq]. specialize (Heq eq_refl). discriminate.
Qed.

(** The entries kept by the filter of [remove_job]. *)
Lemma filter_name_ne_names (name : string) (entries kept : list json) :
  filter_name_ne name entries = Return kept ->
  names kept = filter (fun n => n <> name) (names entries) /\
  sublist kept entries.
Proof.
  revert kept. induction entries as [| e es IH]; simpl; intros kept Hf.
  - injection Hf as <-. split; [reflexivity | constructor].
  - destruct (Py.getitem e "name") as [v | err] eqn:Hget; simpl in Hf;
      [| discriminate].
    destruct (filter_name_ne name es) as [rest | err]; simpl in Hf; [| discriminate].
    destruct (IH rest eq_refl) as [Hnames Hsub].
    pose proof (eq_str_record_name e v name Hget) as Heq.
    injection Hf as <-. rewrite names_cons.
    destruct (Py.eq_str v name) eqn:Hv.
    + destruct Heq as [Heq _]. rewrite (Heq eq_refl). rewrite filter_cons.
      destruct (decide (name <> name)) as [Hne | _]; [congruence |].
      split; [exact Hnames | by apply sublist_cons].
    + rewrite names_cons. destruct (record_name e) as [n |] eqn:Hn.
      * rewrite filter_cons. destruct (decide (n <> name)) as [_ | Hnn].
        -- rewrite Hnames. split; [reflexivity | by apply sublist_skip].
        -- exfalso. apply Hnn. intros ->.
           destruct Heq as [_ Heq]. specialize (Heq eq_refl). discriminate.
      * split; [exact Hnames | by apply sublist_skip].
Qed.

End Lookup.

(** ** Adding and removing *)

(** Unfolds the monad of the script down to functions on worlds. *)
Ltac unfold_M :=
  unfold ensure_dirs, save_registry, write_plist, unlink, print, emit, mkdir,
    set_plist, plist_exists, run_launchctl, now, load_registry, read_log, lift,
    mbind, mret, M_bind, M_ret; simpl.

Section Operations.

Context {Host : Type} (env : Env Host).

Lemma filter_name_absent (name : string) (l : list string) :
  name ∉ l -> filter (fun n => n = name) l = [].
Proof.
  induction l as [| n ns IH]; intros Hnot; [reflexivity |].
  apply not_elem_of_cons in Hnot as [Hne Hnot]. rewrite filter_cons.
  destruct (decide (n = name)) as [-> | _]; [congruence | auto].
Qed.

(** A name of a list without duplicates occurs in it once. *)
Lemma count_name_unique (name : string) (l : list string) :
  NoDup l -> name ∈ l -> length (filter (fun n => n = name) l) = 1.
Proof.
  induction l as [| n ns IH]; intros Hu Hin; [by apply elem_of_nil in Hin |].
  apply NoDup_cons in Hu as [Hn Hns]. rewrite filter_cons.
  destruct (decide (n = name)) as [-> | Hne]; simpl.
  - rewrite filter_name_absent by assumption. reflexivity.
  - apply IH; [assumption |].
    apply elem_of_cons in Hin as [-> | Hin]; [congruence | assumption].
Qed.

(** C2: [add_job] with a name already in the registry returns after printing
    the duplicate-name error, an object whose only key is [error] and whose
    message names the job.  The registry file, the definition files, the
    log files and the host are as before, and the only event is the print:
    no definition file is written, no request goes to the daemon, the
    registry is not rewritten.  With unique names the registry still has
    exactly one record of that name. *)
Theorem add_job_duplicate_no_mutation
    (w : World) (name command : string) (schedule : dict) (description : string) :
  Forall has_name (registry w) -> name ∈ names (registry w) ->
  exists w',
    add_job env name command schedule description w = (Return tt, w') /\
    registry_file w' = registry_file w /\
    plist_files w' = plist_files w /\
    log_files w' = log_files w /\
    host w' = host w /\
    trace w' =
      trace w ++
      [EvPrint (mkdict [("error",
                       JStr ("Job '" +:+ name +:+
                             "' already exists. Remove it first or use a different name."))])] /\
    (unique_names w ->
     length (filter (fun n => n = name) (names (registry w'))) = 1).
Proof.
  intros Hall Hin.
  pose proof (any_name_eq_true name (registry w) Hall Hin) as Hdup.
  eexists. split.
  - unfold add_job. unfold_M. unfold registry in Hdup |- *. simpl.
    rewrite Hdup. reflexivity.
  - simpl. repeat split. intros Huniq. unfold registry at 1. simpl.
    fold (registry w). apply count_name_unique; assumption.
Qed.

(** C3: [remove_job] with a name that is not in the registry returns after
    printing the not-found error, an object whose only key is [error] and
    whose message names the job, and the world is as before but for that
    print: no record is dropped, no definition file deleted, no request sent
    to the daemon, and the registry file is not written. *)
Theorem remove_job_not_found_no_mutation (w : World) (name : string) :
  Forall has_name (registry w) -> name ∉ names (registry w) ->
  remove_job env name w =
    (Return tt,
     mkWorld (registry_file w) (plist_files w) (log_files w) (dirs w) (host w)
             (trace w ++
              [EvPrint (mkdict [("error", JStr ("Job '" +:+ name +:+ "' not found."))])])).
Proof.
  intros Hall Hnot.
  pose proof (next_by_name_none name (registry w) 0 Hall Hnot) as Hnext.
  unfold remove_job. unfold_M. rewrite Hnext. reflexivity.
Qed.

(** C5: [add_job] with a fresh name, once the definition file is written,
    appends the record with [enabled] true and rewrites the registry whatever
    the daemon answers to the load request; the object printed reports under
    [launchctl] whether the return code was zero, hence [False] when the
    daemon refused. *)
Theorem add_job_keeps_record_when_load_fails
    (w : World) (name command : string) (schedule : dict) (description : string) :
  let plist_file := plist_path env name in
  let plist :=
    build_plist (path_join (REGISTRY_DIR env) "logs") name command schedule in
  let rc := (launchctl env ["load"; plist_file] (host w)).1 in
  let h := (launchctl env ["load"; plist_file] (host w)).2 in
  let entry :=
    job_entry name command schedule description plist_file (datetime_now env h) in
  Forall has_name (registry w) -> name ∉ names (registry w) ->
  plistlib_dump env plist = None ->
  exists w',
    add_job env name command schedule description w = (Return tt, w') /\
    registry_file w' = Some (registry w ++ [entry]) /\
    Py.getitem entry "enabled" = Return (JBool true) /\
    record_name entry = Some name /\
    plist_files w' = <[plist_file := Dumped plist]> (plist_files w) /\
    trace w' = trace w ++ [EvWritePlist plist_file;
                           EvLaunchctl ["load"; plist_file] rc;
                           EvWriteRegistry (registry w ++ [entry]);
                           EvPrint (added_result name plist_file rc schedule)] /\
    Py.getitem (added_result name plist_file rc schedule) "launchctl"
      = Return (JBool (rc =? 0)%Z) /\
    (rc <> 0%Z ->
     Py.getitem (added_result name plist_file rc schedule) "launchctl"
       = Return (JBool false)).
Proof.
  intros plist_file plist rc h entry Hall Hnot Hdump.
  assert (Hfresh : any_name_eq name (registry w) = Return false)
    by (apply any_name_eq_false; split; assumption).
  subst rc h entry.
  destruct (launchctl env ["load"; plist_file] (host w)) as [rc h] eqn:Hl.
  eexists. split.
  - unfold add_job. unfold_M. unfold registry in Hfresh |- *. simpl.
    rewrite Hfresh. fold plist_file. fold plist. rewrite Hdump. simpl.
    rewrite Hl. simpl. reflexivity.
  - simpl. unfold registry. simpl. rewrite insert_insert_eq.
    repeat split; rewrite <- ?app_assoc; try reflexivity.
    intros Hrc. apply Z.eqb_neq in Hrc. rewrite Hrc. reflexivity.
Qed.


End Operations.

(** ** Unique names *)

Section Uniqueness.

Context {Host : Type} (env : Env Host).

(** How one invocation changes the registry: [add] leaves it alone or
    appends a record whose name is new, [remove] only drops records,
    [enable] and [disable] only store the flag [enabled] in one record, and
    [list] and [logs] leave it alone. *)
Lemma main_registry (c : command) (w : World) :
  let after := registry (main env c w).2 in
  match c with
  | CmdAdd name _ _ _ =>
      after = registry w \/
      exists entry,
        (name ∉ names (registry w)) /\ record_name entry = Some name /\
        after = registry w ++ [entry]
  | CmdRemove _ => sublist after (registry w)
  | CmdEnable _ | CmdDisable _ =>
      after = registry w \/
      exists (i : nat) (d : dict) (flag : bool),
        registry w !! i = Some (JDict d) /\
        after = <[i := JDict (<["enabled" := JBool flag]> d)]> (registry w)
  | CmdList | CmdLogs _ _ => after = registry w
  end.
Proof.
  destruct c as [name cmdline schedule description | name | name | name | | name lines];
    simpl.
  - unfold add_job. unfold_M.
    destruct (any_name_eq name (registry _)) as [[|] | err] eqn:Hany; simpl;
      [left; reflexivity | | left; reflexivity].
    destruct (plistlib_dump env _) as [err |]; simpl; [left; reflexivity |].
    destruct (launchctl env _ _) as [rc h]; simpl.
    right. eexists. split; [| split; [| reflexivity]].
    + change (any_name_eq name (registry w) = Return false) in Hany.
      apply any_name_eq_false in Hany. tauto.
    + reflexivity.
  - unfold remove_job. unfold_M.
    destruct (next_by_name name (registry w) 0) as [[[i e] |] | err]; simpl;
      [| reflexivity | reflexivity].
    destruct (Py.truthy e); simpl; [| reflexivity].
    destruct (bool_decide _); simpl.
    + destruct (launchctl env _ _) as [rc h]; simpl.
      change (filter_name_ne name
                (registry (mkWorld (registry_file w)
                   (delete (plist_path env name) (plist_files w)) (log_files w)
                   (dirs w) h
                   ((trace w ++ [EvLaunchctl ["unload"; plist_path env name] rc])
                    ++ [EvUnlink (plist_path env name)]))))
        with (filter_name_ne name (registry w)).
      destruct (filter_name_ne name (registry w)) as [kept | err] eqn:Hf; simpl;
        [| reflexivity].
      apply (filter_name_ne_names name _ _ Hf).
    + destruct (filter_name_ne name (registry w)) as [kept | err] eqn:Hf; simpl;
        [| reflexivity].
      apply (filter_name_ne_names name _ _ Hf).
  - unfold enable_job, set_enabled. unfold_M.
    destruct (next_by_name name (registry w) 0) as [[[i e] |] | err] eqn:Hnext; simpl;
      [| left; reflexivity | left; reflexivity].
    destruct (next_by_name_some name _ _ _ _ Hnext) as (d & -> & Hd & _ & Hlook).
    rewrite Nat.sub_0_r in Hlook.
    rewrite (truthy_dict_lookup d "name" _ Hd). simpl.
    destruct (bool_decide _); simpl.
    + destruct (launchctl env _ _) as [rc h]; simpl.
      right. exists i, d, true. split; [exact Hlook | reflexivity].
    + right. exists i, d, true. split; [exact Hlook | reflexivity].
  - unfold disable_job, set_enabled. unfold_M.
    destruct (next_by_name name (registry w) 0) as [[[i e] |] | err] eqn:Hnext; simpl;
      [| left; reflexivity | left; reflexivity].
    destruct (next_by_name_some name _ _ _ _ Hnext) as (d & -> & Hd & _ & Hlook).
    rewrite Nat.sub_0_r in Hlook.
    rewrite (truthy_dict_lookup d "name" _ Hd). simpl.
    destruct (bool_decide _); simpl.
    + destruct (launchctl env _ _) as [rc h]; simpl.
      right. exists i, d, false. split; [exact Hlook | reflexivity].
    + right. exists i, d, false. split; [exact Hlook | reflexivity].
  - unfold list_jobs. unfold_M.
    destruct (registry w) as [| e es] eqn:Hreg; simpl.
    + unfold registry in *. simpl. exact Hreg.
    + destruct (launchctl env _ _) as [rc h]; simpl.
      destruct (match render_entry e with Return _ => _ | Raise _ => _ end);
        simpl; unfold registry in *; simpl; exact Hreg.
  - unfold show_logs. unfold_M. reflexivity.
Qed.

Lemma names_sublist (l1 l2 : list json) :
  sublist l1 l2 -> sublist (names l1) (names l2).
Proof.
  induction 1 as [| x l1 l2 _ IH | x l1 l2 _ IH]; rewrite ?names_cons.
  - constructor.
  - destruct (record_name x); [by apply sublist_skip | exact IH].
  - destruct (record_name x); [by apply sublist_cons | exact IH].
Qed.

(** Storing a key other than ["name"] in a record keeps the names. *)
Lemma names_insert_enabled (l : list json) (i : nat) (d : dict) (flag : bool) :
  l !! i = Some (JDict d) ->
  names (<[i := JDict (<["enabled" := JBool flag]> d)]> l) = names l.
Proof.
  revert i. induction l as [| x l IH]; intros [| i] Hi; simpl in *; try discriminate.
  - injection Hi as ->. rewrite !names_cons. simpl.
    rewrite lookup_insert_ne by discriminate. reflexivity.
  - rewrite !names_cons. rewrite (IH i Hi). reflexivity.
Qed.

(** One invocation keeps the names unique, and changes the list of names as
    its command allows. *)
Lemma main_names (c : command) (w : World) :
  let before := names (registry w) in
  let after := names (registry (main env c w).2) in
  match c with
  | CmdAdd name _ _ _ =>
      after = before \/ ((name ∉ before) /\ after = before ++ [name])
  | CmdRemove _ => sublist after before
  | _ => after = before
  end.
Proof.
  pose proof (main_registry c w) as H. simpl in H |- *.
  destruct c as [name cmdline schedule description | name | name | name | | name lines].
  - destruct H as [-> | (entry & Hnot & Hname & ->)]; [left; reflexivity |].
    right. split; [exact Hnot |]. rewrite names_app. f_equal.
    unfold names. simpl. rewrite Hname. reflexivity.
  - apply names_sublist. exact H.
  - destruct H as [-> | (i & d & flag & Hi & ->)]; [reflexivity |].
    apply names_insert_enabled. exact Hi.
  - destruct H as [-> | (i & d & flag & Hi & ->)]; [reflexivity |].
    apply names_insert_enabled. exact Hi.
  - rewrite H. reflexivity.
  - rewrite H. reflexivity.
Qed.

Lemma main_unique_names (c : command) (w : World) :
  unique_names w -> unique_names (main env c w).2.
Proof.
  unfold unique_names. intros Hu. pose proof (main_names c w) as H. simpl in H.
  destruct c; try (rewrite H; exact Hu).
  - destruct H as [-> | [Hnot ->]]; [exact Hu |].
    apply NoDup_app. split; [exact Hu |]. split.
    + intros x Hx Hin. apply list_elem_of_singleton in Hin. subst. contradiction.
    + apply NoDup_singleton.
  - eapply sublist_NoDup; eauto.
Qed.

(** C1: from a registry with unique names, the names are unique after each
    invocation of any sequence of them.  Only [add] can bring a new name in,
    and only a name that was not there; [remove] only drops names; the other
    commands keep the list of names. *)
Theorem names_stay_unique (cs : list command) (w : World) :
  unique_names w ->
  Forall unique_names (run env cs w) /\
  (forall (c : command) (w0 : World),
     let before := names (registry w0) in
     let after := names (registry (main env c w0).2) in
     match c with
     | CmdAdd name _ _ _ =>
         after = before \/ ((name ∉ before) /\ after = before ++ [name])
     | CmdRemove _ => sublist after before
     | _ => after = before
     end).
Proof.
  intros Hu. split; [| intros c w0; apply main_names].
  revert w Hu. induction cs as [| c cs IH]; intros w Hu; simpl.
  - constructor.
  - pose proof (main_unique_names c w Hu) as Hu'.
    constructor; [exact Hu' | apply IH; exact Hu'].
Qed.

End Uniqueness.

(** ** The theorems at sample inputs *)

Lemma names_stay_unique_witness :
  let cs := [CmdAdd "sync" "rsync -a a b" {[ "interval" := JInt 300 ]} "";
             CmdAdd "backup" "true" ∅ "";
             CmdDisable "sync";
             CmdRemove "backup";
             CmdEnable "sync"] in
  Forall unique_names (run (Sample.env_rc 1) cs (Sample.backup_world true true)).
Proof.
  intros cs.
  apply (names_stay_unique (Sample.env_rc 1) cs (Sample.backup_world true true)).
  unfold unique_names. vm_compute. apply NoDup_singleton.
Defined.

Lemma add_job_duplicate_no_mutation_witness :
  exists w',
    add_job (Sample.env_rc 0) "backup" "true" ∅ "" (Sample.backup_world true true)
    = (Return tt, w') /\
    registry_file w' = Some [Sample.backup_entry true] /\
    trace w' =
      [EvPrint (mkdict [("error",
                         JStr "Job 'backup' already exists. Remove it first or use a different name.")])].
Proof.
  destruct (add_job_duplicate_no_mutation (Sample.env_rc 0)
              (Sample.backup_world true true) "backup" "true" ∅ "")
    as (w' & Hrun & Hreg & _ & _ & _ & Htrace & _).
  - vm_compute. repeat constructor. eauto.
  - vm_compute. apply list_elem_of_here.
  - exists w'. split; [exact Hrun |]. split; [exact Hreg | exact Htrace].
Defined.

Lemma remove_job_not_found_no_mutation_witness :
  remove_job (Sample.env_rc 0) "sync" (Sample.backup_world true true) =
    (Return tt,
     mkWorld (Some [Sample.backup_entry true])
             {[ Sample.backup_plist_path := Dumped ∅ ]} ∅ ∅ tt
             [EvPrint (mkdict [("error", JStr "Job 'sync' not found.")])]).
Proof.
  apply (remove_job_not_found_no_mutation (Sample.env_rc 0)
           (Sample.backup_world true true) "sync").
  - vm_compute. repeat constructor. eauto.
  - vm_compute. intros Hin. apply list_elem_of_singleton in Hin. discriminate.
Defined.

Lemma add_job_keeps_record_when_load_fails_witness :
  exists w' entry,
    add_job (Sample.env_rc 1) "sync" "rsync -a a b" {[ "interval" := JInt 300 ]} ""
            (Sample.backup_world true true)
    = (Return tt, w') /\
    registry_file w' = Some [Sample.backup_entry true; entry] /\
    Py.getitem entry "enabled" = Return (JBool true) /\
    record_name entry = Some "sync".
Proof.
  destruct (add_job_keeps_record_when_load_fails (Sample.env_rc 1)
              (Sample.backup_world true true) "sync" "rsync -a a b"
              {[ "interval" := JInt 300 ]} "")
    as (w' & Hrun & Hreg & Hen & Hname & _).
  - vm_compute. repeat constructor. eauto.
  - vm_compute. intros Hin. apply list_elem_of_singleton in Hin. discriminate.
  - reflexivity.
  - eexists w', _. split; [exact Hrun |]. split; [exact Hreg |].
    split; [exact Hen | exact Hname].
Defined.



(** C9 fails at a line count of zero: [content[-0:]] is the whole list, so
    [show_logs] prints the three lines of the log. *)
Theorem show_logs_zero_lines_prints_all :
  (show_logs (Sample.env_rc 0) "backup" 0 Sample.logs_world).1 = Return tt /\
  trace (show_logs (Sample.env_rc 0) "backup" 0 Sample.logs_world).2
    = [EvPrint (mkdict [("stdout", JList [JStr "one"; JStr "two"; JStr "three"])])].
Proof. vm_compute. split; reflexivity. Qed.

(** ** More on the translation and on the summaries *)

Section MoreTranslation.

(** X1: An interval that is absent or falsy (0, null, false) leaves the schedule
    to the calendar: the definition gets [StartCalendarInterval], verbatim,
    and no [StartInterval]. *)
Theorem calendar_used_without_truthy_interval
    (log_dir name command : string) (schedule : dict) (cal : json) :
  Py.truthy (default JNull (schedule !! "interval")) = false ->
  schedule !! "calendar" = Some cal -> Py.truthy cal = true ->
  build_plist log_dir name command schedule !! "StartCalendarInterval" = Some cal /\
  build_plist log_dir name command schedule !! "StartInterval" = None.
Proof.
  intros Hi Hc Ht. unfold build_plist. rewrite Hi, Hc. simpl. rewrite Ht.
  destruct (Py.truthy (default (JBool false) (schedule !! "run_at_load")));
    split; reflexivity.
Qed.

(** X2: Whatever the schedule, the definition never has both schedule keys, and
    it has [RunAtLoad] exactly when [run_at_load] is truthy. *)
Theorem build_plist_schedule_keys
    (log_dir name command : string) (schedule : dict) :
  ~ (is_Some (build_plist log_dir name command schedule !! "StartInterval") /\
     is_Some (build_plist log_dir name command schedule !! "StartCalendarInterval")) /\
  (is_Some (build_plist log_dir name command schedule !! "RunAtLoad") <->
   Py.truthy (default (JBool false) (schedule !! "run_at_load")) = true).
Proof.
  unfold build_plist.
  destruct (Py.truthy (default JNull (schedule !! "interval")));
    destruct (Py.truthy (default JNull (schedule !! "calendar")));
    destruct (Py.truthy (default (JBool false) (schedule !! "run_at_load")));
    (split; [intros [[? H1] [? H2]]; discriminate
            | split; [intros [? H]; first [reflexivity | discriminate]
                     | intros H; first [discriminate | eexists; reflexivity]]]).
Qed.

(** X3: A schedule with neither a truthy interval nor a truthy calendar (the
    empty schedule, or an empty calendar) is summarised by the empty
    string. *)
Theorem schedule_desc_unset (s : dict) :
  Py.truthy (default JNull (s !! "interval")) = false ->
  Py.truthy (default JNull (s !! "calendar")) = false ->
  schedule_desc (JDict s) = Return "".
Proof.
  intros Hi Hc. unfold schedule_desc. simpl. rewrite Hi, Hc. reflexivity.
Qed.


End MoreTranslation.

Lemma calendar_used_without_truthy_interval_witness :
  let schedule : dict :=
    list_to_map [("interval", JInt 0); ("calendar", mkdict [("Hour", JInt 9)])] in
  build_plist "/logs" "backup" "true" schedule !! "StartCalendarInterval"
    = Some (mkdict [("Hour", JInt 9)]) /\
  build_plist "/logs" "backup" "true" schedule !! "StartInterval" = None.
Proof.
  intros schedule.
  apply (calendar_used_without_truthy_interval "/logs" "backup" "true" schedule
           (mkdict [("Hour", JInt 9)])); vm_compute; reflexivity.
Defined.

Lemma schedule_desc_unset_witness :
  schedule_desc (mkdict [("calendar", JDict ∅); ("run_at_load", JBool true)])
  = Return "".
Proof.
  apply (schedule_desc_unset
           (list_to_map [("calendar", JDict ∅); ("run_at_load", JBool true)]));
    vm_compute; reflexivity.
Defined.


(** ** More on listing *)

Section MoreListing.

Context {Host : Type} (env : Env Host).

Lemma str_take_length (n : nat) (s : string) : String.length (Py.str_take n s) <= n.
Proof.
  revert s. induction n as [| n IH]; intros [| c s]; simpl; try lia.
  specialize (IH s). lia.
Qed.

Lemma str_take_prefix (n : nat) (s : string) :
  String.prefix (Py.str_take n s) s = true.
Proof.
  revert s. induction n as [| n IH]; intros [| c s]; simpl; try reflexivity.
  rewrite IH. destruct (Ascii.ascii_dec c c); [reflexivity | congruence].
Qed.

(** X5: A record as [add_job] writes it is rendered whenever its schedule can be
    summarised: no key is missing.  The object shown has the name, the flag
    [enabled], the summary, the description, and the command cut to its
    first 80 characters. *)
Theorem render_entry_of_job_entry
    (name command : string) (schedule : dict)
    (description plist_file created : string) :
  render_entry (job_entry name command schedule description plist_file created) =
    match schedule_desc (JDict schedule) with
    | Return desc =>
        Return (mkdict [("name", JStr name);
                        ("enabled", JBool true);
                        ("schedule", JStr desc);
                        ("command", JStr (Py.str_take 80 command));
                        ("description", JStr description)])
    | Raise e => Raise e
    end /\
  String.length (Py.str_take 80 command) <= 80 /\
  String.prefix (Py.str_take 80 command) command = true.
Proof.
  split; [| split; [apply str_take_length | apply str_take_prefix]].
  unfold render_entry, job_entry, mkdict.
  set (d := list_to_map (M := dict) _).
  assert (Hs : d !! "schedule" = Some (JDict schedule)) by reflexivity.
  assert (Hn : d !! "name" = Some (JStr name)) by reflexivity.
  assert (Hc : d !! "command" = Some (JStr command)) by reflexivity.
  assert (He : d !! "enabled" = Some (JBool true)) by reflexivity.
  assert (Hd : d !! "description" = Some (JStr description)) by reflexivity.
  clearbody d. simpl. rewrite Hs, Hn, Hc, He, Hd. simpl.
  destruct (schedule_desc (JDict schedule)) as [desc | err]; reflexivity.
Qed.

(** X6: With no record (or no registry file) [list_jobs] prints the empty
    listing and does not query the daemon. *)
Theorem list_jobs_empty (w : World) :
  registry w = [] ->
  list_jobs env w =
    (Return tt,
     mkWorld (registry_file w) (plist_files w) (log_files w) (dirs w) (host w)
             (trace w ++ [EvPrint (mkdict [("jobs", JList []); ("count", JInt 0)])])).
Proof.
  intros Hreg. unfold list_jobs, load_registry, print, emit, mbind, M_bind.
  rewrite Hreg. reflexivity.
Qed.

Lemma for_each_length {A B} (f : A -> outcome B) (l : list A) (out : list B) :
  for_each f l = Return out -> length out = length l.
Proof.
  revert out. induction l as [| x l IH]; simpl; intros out H.
  - injection H as <-. reflexivity.
  - destruct (f x); [| discriminate].
    destruct (for_each f l) as [ys |]; [| discriminate].
    injection H as <-. simpl. f_equal. apply IH. reflexivity.
Qed.

(** X7: When every record renders, [list_jobs] queries the daemon once and prints
    one object per record, in the order of the registry, with their count;
    the registry and the files are left as they were. *)
Theorem list_jobs_renders_all (w : World) (output : list json) :
  registry w <> [] ->
  for_each render_entry (registry w) = Return output ->
  list_jobs env w =
    (Return tt,
     mkWorld (registry_file w) (plist_files w) (log_files w) (dirs w)
             (launchctl env ["list"] (host w)).2
             (trace w ++
              [EvLaunchctl ["list"] (launchctl env ["list"] (host w)).1;
               EvPrint (mkdict [("jobs", JList output);
                                ("count", JInt (Z.of_nat (length (registry w))))])])) /\
  length output = length (registry w) /\
  (forall (i : nat) (e : json),
     registry w !! i = Some e ->
     exists o, output !! i = Some o /\ render_entry e = Return o).
Proof.
  intros Hne Hall.
  pose proof (for_each_length _ _ _ Hall) as Hlen.
  split; [| split; [exact Hlen |]].
  - rewrite list_jobs_nonempty by exact Hne. rewrite Hall.
    unfold print, emit, after_launchctl_list. simpl.
    rewrite Hlen, <- app_assoc. reflexivity.
  - clear Hne Hlen. revert output Hall.
    induction (registry w) as [| x l IH]; intros output Hall i e Hi.
    + destruct i; discriminate.
    + simpl in Hall. destruct (render_entry x) as [y |] eqn:Hx; [| discriminate].
      destruct (for_each render_entry l) as [ys |]; [| discriminate].
      injection Hall as <-. destruct i as [| i]; simpl in *.
      * injection Hi as <-. eauto.
      * apply (IH ys eq_refl i e Hi).
Qed.

End MoreListing.

Lemma list_jobs_empty_witness :
  list_jobs (Sample.env_rc 0) Sample.empty_world =
    (Return tt,
     mkWorld None ∅ ∅ ∅ tt
             [EvPrint (mkdict [("jobs", JList []); ("count", JInt 0)])]).
Proof.
  apply (list_jobs_empty (Sample.env_rc 0) Sample.empty_world). reflexivity.
Defined.

Lemma list_jobs_renders_all_witness :
  exists output,
    (list_jobs (Sample.env_rc 0) (Sample.backup_world true true)).1 = Return tt /\
    length output = 1 /\
    output !! 0 =
      Some (mkdict [("name", JStr "backup");
                    ("enabled", JBool true);
                    ("schedule", JStr "every 60 min");
                    ("command", JStr "rsync -a ~/Documents /Volumes/Backup");
                    ("description", JStr "")]).
Proof.
  eexists.
  destruct (list_jobs_renders_all (Sample.env_rc 0) (Sample.backup_world true true)
              _ ltac:(discriminate) ltac:(vm_compute; reflexivity))
    as (Hrun & Hlen & _).
  split; [rewrite Hrun; reflexivity |]. split; [exact Hlen | reflexivity].
Defined.

(** ** More on the operations *)

Section MoreOperations.

Context {Host : Type} (env : Env Host).


Lemma filter_name_ne_absent (name : string) (entries : list json) :
  Forall has_name entries -> name ∉ names entries ->
  filter_name_ne name entries = Return entries.
Proof.
  induction 1 as [| e es He _ IH]; simpl; intros Hnot; [reflexivity |].
  destruct (getitem_has_name e He) as [v Hv]. rewrite Hv. simpl.
  pose proof (eq_str_record_name e v name Hv) as Heq.
  rewrite names_cons in Hnot.
  destruct (Py.eq_str v name) eqn:Hvn.
  - destruct Heq as [Heq _]. rewrite (Heq eq_refl) in Hnot.
    exfalso. apply Hnot. left.
  - rewrite IH; [reflexivity |].
    destruct (record_name e); [| exact Hnot].
    apply not_elem_of_cons in Hnot. tauto.
Qed.

Lemma filter_name_ne_snoc (name : string) (entries : list json) (e : json) :
  Forall has_name entries -> name ∉ names entries ->
  has_name e -> record_name e = Some name ->
  filter_name_ne name (entries ++ [e]) = Return entries.
Proof.
  intros Hall Hnot He Hname. induction Hall as [| x es Hx _ IH]; simpl.
  - destruct (getitem_has_name e He) as [v Hv]. rewrite Hv. simpl.
    destruct (eq_str_record_name e v name Hv) as [_ Heq].
    rewrite (Heq Hname). reflexivity.
  - destruct (getitem_has_name x Hx) as [v Hv]. rewrite Hv. simpl.
    pose proof (eq_str_record_name x v name Hv) as Heq.
    rewrite names_cons in Hnot.
    destruct (Py.eq_str v name) eqn:Hvn.
    + destruct Heq as [Heq _]. rewrite (Heq eq_refl) in Hnot.
      exfalso. apply Hnot. left.
    + rewrite IH; [reflexivity |].
      destruct (record_name x); [| exact Hnot].
      apply not_elem_of_cons in Hnot. tauto.
Qed.

Lemma record_name_has_name (e : json) (name : string) :
  record_name e = Some name -> has_name e.
Proof.
  destruct e as [| | | | | d]; simpl; try discriminate.
  destruct (d !! "name"); [eauto | discriminate].
Qed.

(** X8: [enable_job] and [disable_job] with a name that is not in the registry
    print the not-found error, an object whose only key is [error] and whose
    message names the job, and leave the world as it was. *)
Theorem set_enabled_not_found_no_mutation (w : World) (name : string) :
  Forall has_name (registry w) -> name ∉ names (registry w) ->
  enable_job env name w =
    (Return tt,
     mkWorld (registry_file w) (plist_files w) (log_files w) (dirs w) (host w)
             (trace w ++
              [EvPrint (mkdict [("error", JStr ("Job '" +:+ name +:+ "' not found."))])])) /\
  disable_job env name w =
    (Return tt,
     mkWorld (registry_file w) (plist_files w) (log_files w) (dirs w) (host w)
             (trace w ++
              [EvPrint (mkdict [("error", JStr ("Job '" +:+ name +:+ "' not found."))])])).
Proof.
  intros Hall Hnot.
  pose proof (next_by_name_none name (registry w) 0 Hall Hnot) as Hnext.
  unfold enable_job, disable_job, set_enabled. unfold_M. rewrite Hnext.
  split; reflexivity.
Qed.

(** What [enable_job] and [disable_job] do to a record they find: at most one
    request to the daemon, sent only when the definition file exists, then
    the flag is stored in that record and the registry rewritten. *)
Lemma set_enabled_found
    (verb status : string) (flag : bool) (w : World) (name : string)
    (i : nat) (d : dict) :
  next_by_name name (registry w) 0 = Return (Some (i, JDict d)) ->
  exists w',
    set_enabled env verb status flag name w = (Return tt, w') /\
    registry_file w'
      = Some (<[i := JDict (<["enabled" := JBool flag]> d)]> (registry w)) /\
    plist_files w' = plist_files w /\
    log_files w' = log_files w /\
    trace w' = trace w ++
      (if bool_decide (is_Some (plist_files w !! plist_path env name))
       then [EvLaunchctl [verb; plist_path env name]
               (launchctl env [verb; plist_path env name] (host w)).1]
       else []) ++
      [EvWriteRegistry (<[i := JDict (<["enabled" := JBool flag]> d)]> (registry w));
       EvPrint (status_result status name)].
Proof.
  intros Hnext.
  destruct (next_by_name_some name (registry w) 0 i _ Hnext)
    as (d' & [= <-] & Hd & _ & _).
  destruct (launchctl env [verb; plist_path env name] (host w)) as [rc h] eqn:Hl.
  destruct (bool_decide (is_Some (plist_files w !! plist_path env name))) eqn:Hex.
  - eexists. split.
    + unfold set_enabled. unfold_M. rewrite Hnext.
      rewrite (truthy_dict_lookup d "name" _ Hd). simpl. rewrite Hex. simpl.
      rewrite Hl. simpl. reflexivity.
    + simpl. rewrite <- !app_assoc. repeat split.
  - eexists. split.
    + unfold set_enabled. unfold_M. rewrite Hnext.
      rewrite (truthy_dict_lookup d "name" _ Hd). simpl. rewrite Hex. simpl.
      reflexivity.
    + simpl. rewrite <- !app_assoc. repeat split.
Qed.

(** Storing the flag in the record found keeps it the record found. *)
Lemma next_by_name_insert (name : string) (entries : list json) (k i : nat)
    (d d' : dict) :
  next_by_name name entries k = Return (Some (i, JDict d)) ->
  d' !! "name" = d !! "name" ->
  next_by_name name (<[i - k := JDict d']> entries) k = Return (Some (i, JDict d')).
Proof.
  revert k. induction entries as [| x es IH]; simpl; intros k Hnext Hname;
    [discriminate |].
  destruct (Py.getitem x "name") as [v | err] eqn:Hget; simpl in Hnext;
    [| discriminate].
  destruct (Py.eq_str v name) eqn:Hv.
  - injection Hnext as Hk Hx. subst. rewrite Nat.sub_diag. simpl.
    simpl in Hget. rewrite Hname. destruct (d !! "name"); [| discriminate].
    injection Hget as ->. simpl. rewrite Hv. reflexivity.
  - destruct (next_by_name_some name es (S k) i _ Hnext) as (_ & _ & _ & Hle & _).
    replace (i - k) with (S (i - S k)) by lia. simpl.
    rewrite Hget. simpl. rewrite Hv. apply IH; assumption.
Qed.

(** The record [next] finds is the first of that name. *)
Lemma next_by_name_first (name : string) (entries : list json) (k i : nat) (e : json) :
  next_by_name name entries k = Return (Some (i, e)) ->
  forall (j : nat) (x : json),
    j < i - k -> entries !! j = Some x -> record_name x <> Some name.
Proof.
  revert k. induction entries as [| y es IH]; simpl; intros k Hnext j x Hj Hx;
    [discriminate |].
  destruct (Py.getitem y "name") as [v | err] eqn:Hget; simpl in Hnext;
    [| discriminate].
  pose proof (eq_str_record_name y v name Hget) as Heq.
  destruct (Py.eq_str v name) eqn:Hv.
  - injection Hnext as Hk _. subst. lia.
  - destruct j as [| j]; simpl in Hx.
    + injection Hx as <-. intros Hname. apply Heq in Hname. discriminate.
    + apply (IH (S k) Hnext j x); [lia | exact Hx].
Qed.

(** X9: [disable_job] on a name of the registry stores [enabled] false in the
    first record of that name, prints the status object and keeps every
    definition file: the job can be enabled again. *)
Theorem disable_job_keeps_definition (w : World) (name : string) :
  Forall has_name (registry w) -> name ∈ names (registry w) ->
  exists (i : nat) (d : dict) (w' : World),
    registry w !! i = Some (JDict d) /\
    d !! "name" = Some (JStr name) /\
    (forall (j : nat) (x : json),
       j < i -> registry w !! j = Some x -> record_name x <> Some name) /\
    disable_job env name w = (Return tt, w') /\
    registry_file w'
      = Some (<[i := JDict (<["enabled" := JBool false]> d)]> (registry w)) /\
    plist_files w' = plist_files w /\
    last (trace w')
      = Some (EvPrint (mkdict [("status", JStr "disabled"); ("name", JStr name)])).
Proof.
  intros Hall Hin.
  destruct (next_by_name_found name (registry w) 0 Hall Hin) as (i & e & Hnext).
  destruct (next_by_name_some name (registry w) 0 i e Hnext)
    as (d & -> & Hd & _ & Hlook).
  rewrite Nat.sub_0_r in Hlook.
  pose proof (next_by_name_first name (registry w) 0 i _ Hnext) as Hfirst.
  rewrite Nat.sub_0_r in Hfirst.
  destruct (set_enabled_found "unload" "disabled" false w name i d Hnext)
    as (w' & Hrun & Hreg & Hfiles & _ & Htrace).
  exists i, d, w'. repeat split; try assumption.
  rewrite Htrace, !app_assoc.
  change [?a; ?b] with ([a] ++ [b]). rewrite app_assoc. apply last_snoc.
Qed.

(** X10: [disable_job] followed by [enable_job] of the same name: both
    succeed, the first record of that name has [enabled] true and is
    otherwise as before, the other records and the definition files are
    untouched.  When the record was enabled before, the registry is back to
    what it was. *)
Theorem disable_then_enable (w : World) (name : string) :
  Forall has_name (registry w) -> name ∈ names (registry w) ->
  exists (i : nat) (d : dict) (w1 w2 : World),
    registry w !! i = Some (JDict d) /\
    d !! "name" = Some (JStr name) /\
    (forall (j : nat) (x : json),
       j < i -> registry w !! j = Some x -> record_name x <> Some name) /\
    disable_job env name w = (Return tt, w1) /\
    enable_job env name w1 = (Return tt, w2) /\
    registry w2 = <[i := JDict (<["enabled" := JBool true]> d)]> (registry w) /\
    plist_files w2 = plist_files w /\
    (d !! "enabled" = Some (JBool true) -> registry w2 = registry w).
Proof.
  intros Hall Hin.
  destruct (next_by_name_found name (registry w) 0 Hall Hin) as (i & e & Hnext).
  destruct (next_by_name_some name (registry w) 0 i e Hnext)
    as (d & -> & Hd & _ & Hlook).
  rewrite Nat.sub_0_r in Hlook.
  pose proof (next_by_name_first name (registry w) 0 i _ Hnext) as Hfirst.
  rewrite Nat.sub_0_r in Hfirst.
  destruct (set_enabled_found "unload" "disabled" false w name i d Hnext)
    as (w1 & Hrun1 & Hreg1 & Hfiles1 & _ & _).
  assert (Hnext1 : next_by_name name (registry w1) 0
                   = Return (Some (i, JDict (<["enabled" := JBool false]> d)))).
  { unfold registry at 1. rewrite Hreg1.
    rewrite <- (Nat.sub_0_r i) at 1.
    apply (next_by_name_insert name (registry w) 0 i d); [exact Hnext |].
    apply lookup_insert_ne. discriminate. }
  destruct (set_enabled_found "load" "enabled" true w1 name i _ Hnext1)
    as (w2 & Hrun2 & Hreg2 & Hfiles2 & _ & _).
  assert (Hfinal : registry w2
                   = <[i := JDict (<["enabled" := JBool true]> d)]> (registry w)).
  { unfold registry at 1. rewrite Hreg2. unfold registry at 1. rewrite Hreg1.
    rewrite list_insert_insert_eq, insert_insert_eq. reflexivity. }
  exists i, d, w1, w2. repeat split; try assumption.
  - congruence.
  - intros Hen. rewrite Hfinal. apply list_insert_id.
    rewrite Hlook. f_equal. f_equal. symmetry. apply insert_id. exact Hen.
Qed.

End MoreOperations.

(** ** Removing, and adding twice *)

Section AddRemove.

Context {Host : Type} (env : Env Host).

(** What [remove_job] does once [next] found a record and the filter
    returned [kept]. *)
Lemma remove_job_found (w : World) (name : string) (i : nat) (e : json)
    (kept : list json) :
  next_by_name name (registry w) 0 = Return (Some (i, e)) ->
  filter_name_ne name (registry w) = Return kept ->
  exists w',
    remove_job env name w = (Return tt, w') /\
    registry_file w' = Some kept /\
    plist_files w' = delete (plist_path env name) (plist_files w) /\
    log_files w' = log_files w /\
    last (trace w') = Some (EvPrint (status_result "removed" name)) /\
    (is_Some (plist_files w !! plist_path env name) ->
     EvLaunchctl ["unload"; plist_path env name]
       (launchctl env ["unload"; plist_path env name] (host w)).1 ∈ trace w') /\
    (plist_files w !! plist_path env name = None -> host w' = host w).
Proof.
  intros Hnext Hf.
  destruct (next_by_name_some name (registry w) 0 i e Hnext)
    as (d & -> & Hd & _ & _).
  destruct (launchctl env ["unload"; plist_path env name] (host w)) as [rc h] eqn:Hl.
  destruct (plist_files w !! plist_path env name) as [f |] eqn:Hex.
  - eexists. split.
    + unfold remove_job. unfold_M. rewrite Hnext.
      rewrite (truthy_dict_lookup d "name" _ Hd). simpl. rewrite Hex. simpl.
      rewrite Hl. simpl. unfold registry in Hf |- *. simpl. rewrite Hf. simpl.
      reflexivity.
    + simpl. repeat split.
      * apply last_snoc.
      * intros _. rewrite !elem_of_app. left. left. left. right.
        apply list_elem_of_here.
      * discriminate.
  - eexists. split.
    + unfold remove_job. unfold_M. rewrite Hnext.
      rewrite (truthy_dict_lookup d "name" _ Hd). simpl. rewrite Hex. simpl.
      rewrite Hf. simpl. reflexivity.
    + simpl. repeat split.
      * symmetry. apply delete_id. exact Hex.
      * apply last_snoc.
      * intros [? ?]. discriminate.
Qed.


(** When [add_job] returns on a name that was not in the registry, it has
    appended a record of that name. *)
Lemma add_job_returned
    (w w1 : World) (name command : string) (schedule : dict) (description : string) :
  Forall has_name (registry w) -> name ∉ names (registry w) ->
  add_job env name command schedule description w = (Return tt, w1) ->
  exists entry,
    registry_file w1 = Some (registry w ++ [entry]) /\
    record_name entry = Some name.
Proof.
  intros Hall Hnot.
  assert (Hfresh : any_name_eq name (registry w) = Return false)
    by (apply any_name_eq_false; split; assumption).
  unfold add_job. unfold_M. unfold registry in Hfresh |- *. simpl.
  rewrite Hfresh.
  destruct (plistlib_dump env _) as [err |]; simpl; [discriminate |].
  destruct (launchctl env _ _) as [rc h]; simpl.
  intros [= <-]. eexists. split; reflexivity.
Qed.

Lemma add_job_duplicate_aux
    (w : World) (name command : string) (schedule : dict) (description : string) :
  Forall has_name (registry w) -> name ∈ names (registry w) ->
  exists w2,
    add_job env name command schedule description w = (Return tt, w2) /\
    registry_file w2 = registry_file w /\
    plist_files w2 = plist_files w /\
    trace w2 = trace w ++ [EvPrint (duplicate_error name)].
Proof.
  intros Hall Hin.
  pose proof (any_name_eq_true name (registry w) Hall Hin) as Hdup.
  eexists. split.
  - unfold add_job. unfold_M. unfold registry in Hdup |- *. simpl.
    rewrite Hdup. reflexivity.
  - simpl. repeat split.
Qed.

(** X12: when [add_job] of a new name has returned, it has appended one
    record of that name, and a second [add_job] with the same name, whatever
    its other arguments, prints the duplicate-name error and leaves the
    registry and the definition files as the first call left them. *)
Theorem add_job_twice
    (w w1 : World) (name command command' : string) (schedule schedule' : dict)
    (description description' : string) :
  Forall has_name (registry w) -> name ∉ names (registry w) ->
  add_job env name command schedule description w = (Return tt, w1) ->
  exists (entry : json) (w2 : World),
    registry w1 = registry w ++ [entry] /\
    record_name entry = Some name /\
    add_job env name command' schedule' description' w1 = (Return tt, w2) /\
    registry_file w2 = registry_file w1 /\
    plist_files w2 = plist_files w1 /\
    last (trace w2)
      = Some (EvPrint (mkdict [("error",
                              JStr ("Job '" +:+ name +:+
                                    "' already exists. Remove it first or use a different name."))])).
Proof.
  intros Hall Hnot Hrun1.
  destruct (add_job_returned w w1 name command schedule description Hall Hnot Hrun1)
    as (entry & Hreg1 & Hname1).
  assert (Hreg1' : registry w1 = registry w ++ [entry])
    by (unfold registry at 1; rewrite Hreg1; reflexivity).
  assert (Hall1 : Forall has_name (registry w1)).
  { rewrite Hreg1'. apply Forall_app. split; [exact Hall |].
    constructor; [eauto using record_name_has_name | constructor]. }
  assert (Hin1 : name ∈ names (registry w1)).
  { rewrite Hreg1', names_app, elem_of_app. right.
    rewrite names_cons, Hname1. apply list_elem_of_here. }
  destruct (add_job_duplicate_aux w1 name command' schedule' description' Hall1 Hin1)
    as (w2 & Hrun2 & Hreg2 & Hfiles2 & Htrace2).
  exists entry, w2. repeat split; try assumption.
  rewrite Htrace2. apply last_snoc.
Qed.

(** X13: when [add_job] of a new name has returned, [remove_job] of that name
    succeeds, brings the registry back to the entries it had before the
    [add_job], and leaves no definition file at the path of the job. *)
Theorem add_then_remove
    (w w1 : World) (name command : string) (schedule : dict) (description : string) :
  Forall has_name (registry w) -> name ∉ names (registry w) ->
  add_job env name command schedule description w = (Return tt, w1) ->
  exists w2,
    remove_job env name w1 = (Return tt, w2) /\
    registry w2 = registry w /\
    plist_files w2 !! plist_path env name = None.
Proof.
  intros Hall Hnot Hrun1.
  destruct (add_job_returned w w1 name command schedule description Hall Hnot Hrun1)
    as (entry & Hreg1 & Hname1).
  assert (Hreg1' : registry w1 = registry w ++ [entry])
    by (unfold registry at 1; rewrite Hreg1; reflexivity).
  assert (Hall1 : Forall has_name (registry w1)).
  { rewrite Hreg1'. apply Forall_app. split; [exact Hall |].
    constructor; [eauto using record_name_has_name | constructor]. }
  assert (Hin1 : name ∈ names (registry w1)).
  { rewrite Hreg1', names_app, elem_of_app. right.
    rewrite names_cons, Hname1. apply list_elem_of_here. }
  destruct (next_by_name_found name (registry w1) 0 Hall1 Hin1) as (i & e & Hnext).
  assert (Hf : filter_name_ne name (registry w1) = Return (registry w)).
  { rewrite Hreg1'. apply filter_name_ne_snoc; eauto using record_name_has_name. }
  destruct (remove_job_found w1 name i e (registry w) Hnext Hf)
    as (w2 & Hrun2 & Hreg2 & Hfiles2 & _).
  exists w2. repeat split; try assumption.
  - unfold registry at 1. rewrite Hreg2. reflexivity.
  - rewrite Hfiles2. apply lookup_delete_eq.
Qed.

(** X14: When [plistlib.dump] raises, [add_job] ends in that exception: the
    definition file has been created and is left truncated, no request went
    to the daemon, and the registry has no record of the job. *)
Theorem add_job_dump_fails
    (w : World) (name command : string) (schedule : dict) (description : string)
    (e : exn) :
  Forall has_name (registry w) -> name ∉ names (registry w) ->
  plistlib_dump env
    (build_plist (path_join (REGISTRY_DIR env) "logs") name command schedule) = Some e ->
  exists w',
    add_job env name command schedule description w = (Raise e, w') /\
    registry_file w' = registry_file w /\
    plist_files w' = <[plist_path env name := Truncated]> (plist_files w) /\
    host w' = host w /\
    trace w' = trace w ++ [EvWritePlist (plist_path env name)].
Proof.
  intros Hall Hnot Hdump.
  assert (Hfresh : any_name_eq name (registry w) = Return false)
    by (apply any_name_eq_false; split; assumption).
  eexists. split.
  - unfold add_job. unfold_M. unfold registry in Hfresh |- *. simpl.
    rewrite Hfresh. rewrite Hdump. simpl. reflexivity.
  - simpl. repeat split.
Qed.

End AddRemove.

(** ** What every command keeps *)

Section Invariants.

Context {Host : Type} (env : Env Host).

Lemma main_has_name (c : command) (w : World) :
  Forall has_name (registry w) -> Forall has_name (registry (main env c w).2).
Proof.
  intros Hall. pose proof (main_registry env c w) as H. simpl in H.
  destruct c as [name cmdline schedule description | name | name | name | | name lines].
  - destruct H as [-> | (entry & _ & Hname & ->)]; [exact Hall |].
    apply Forall_app. split; [exact Hall |].
    constructor; [eauto using record_name_has_name | constructor].
  - apply Forall_forall. intros x Hx. rewrite Forall_forall in Hall.
    apply Hall. eapply sublist_subseteq; eauto.
  - destruct H as [-> | (i & d & flag & Hi & ->)]; [exact Hall |].
    apply Forall_insert; [exact Hall |].
    pose proof (Forall_lookup_1 _ _ _ _ Hall Hi) as [v Hv]. simpl in *.
    rewrite lookup_insert_ne by discriminate. eauto.
  - destruct H as [-> | (i & d & flag & Hi & ->)]; [exact Hall |].
    apply Forall_insert; [exact Hall |].
    pose proof (Forall_lookup_1 _ _ _ _ Hall Hi) as [v Hv]. simpl in *.
    rewrite lookup_insert_ne by discriminate. eauto.
  - rewrite H. exact Hall.
  - rewrite H. exact Hall.
Qed.

(** X15: Every entry of the registry keeps a name along any sequence of
    invocations: a registry that the script alone has written (starting
    from no file) never makes the lookups by name raise. *)
Theorem registry_entries_keep_names (cs : list command) (w : World) :
  Forall has_name (registry w) ->
  Forall (fun w' => Forall has_name (registry w')) (run env cs w).
Proof.
  revert w. induction cs as [| c cs IH]; intros w Hall; simpl; [constructor |].
  pose proof (main_has_name c w Hall) as Hall'.
  constructor; [exact Hall' | apply IH; exact Hall'].
Qed.

Lemma printed_app (t1 t2 : list Event) : printed (t1 ++ t2) = printed t1 ++ printed t2.
Proof. apply omap_app. Qed.

(** Closes a leaf of the unfolded script: the trace is the old one followed
    by the events of the run, with one object printed or none. *)
Ltac close_leaf :=
  simpl;
  first [ exists []; split; [symmetry; apply app_nil_r | reflexivity]
        | eexists; split; [rewrite <- ?app_assoc; reflexivity | simpl; eauto] ].

(** X16: An invocation only appends to the trace, and it prints exactly one
    object when it returns and nothing when it ends in an exception. *)
Theorem main_prints_once (c : command) (w : World) :
  exists evs,
    trace (main env c w).2 = trace w ++ evs /\
    match (main env c w).1 with
    | Return _ => exists j, printed evs = [j]
    | Raise _ => printed evs = []
    end.
Proof.
  destruct c as [name cmdline schedule description | name | name | name | | name lines];
    simpl.
  - unfold add_job. unfold_M.
    destruct (any_name_eq name (registry _)) as [[|] | err]; simpl; try close_leaf.
    destruct (plistlib_dump env _) as [err |]; simpl; try close_leaf.
    destruct (launchctl env _ _) as [rc h]; close_leaf.
  - unfold remove_job. unfold_M.
    destruct (next_by_name name (registry w) 0) as [[[i e] |] | err]; simpl;
      try close_leaf.
    destruct (Py.truthy e); simpl; try close_leaf.
    destruct (bool_decide _); simpl.
    + destruct (launchctl env _ _) as [rc h]; simpl.
      destruct (filter_name_ne name _) as [kept | err]; close_leaf.
    + destruct (filter_name_ne name _) as [kept | err]; close_leaf.
  - unfold enable_job, set_enabled. unfold_M.
    destruct (next_by_name name (registry w) 0) as [[[i e] |] | err]; simpl;
      try close_leaf.
    destruct (Py.truthy e); simpl; try close_leaf.
    destruct (bool_decide _); simpl.
    + destruct (launchctl env _ _) as [rc h]; simpl.
      destruct (Py.setitem e "enabled" _) as [e' | err]; close_leaf.
    + destruct (Py.setitem e "enabled" _) as [e' | err]; close_leaf.
  - unfold disable_job, set_enabled. unfold_M.
    destruct (next_by_name name (registry w) 0) as [[[i e] |] | err]; simpl;
      try close_leaf.
    destruct (Py.truthy e); simpl; try close_leaf.
    destruct (bool_decide _); simpl.
    + destruct (launchctl env _ _) as [rc h]; simpl.
      destruct (Py.setitem e "enabled" _) as [e' | err]; close_leaf.
    + destruct (Py.setitem e "enabled" _) as [e' | err]; close_leaf.
  - unfold list_jobs. unfold_M.
    destruct (registry w) as [| e es]; simpl; try close_leaf.
    destruct (launchctl env _ _) as [rc h]; simpl.
    destruct (match render_entry e with Return _ => _ | Raise _ => _ end); close_leaf.
  - unfold show_logs. unfold_M. close_leaf.
Qed.

Lemma main_file_effects_aux (c : command) (w : World) :
  log_files (main env c w).2 = log_files w /\
  match c with
  | CmdAdd _ _ _ _ | CmdRemove _ => True
  | CmdEnable _ | CmdDisable _ => plist_files (main env c w).2 = plist_files w
  | CmdList | CmdLogs _ _ =>
      plist_files (main env c w).2 = plist_files w /\
      registry_file (main env c w).2 = registry_file w
  end.
Proof.
  destruct c as [name cmdline schedule description | name | name | name | | name lines];
    simpl.
  - unfold add_job. unfold_M.
    destruct (any_name_eq name (registry _)) as [[|] | err]; simpl; try tauto.
    destruct (plistlib_dump env _) as [err |]; simpl; try tauto.
    destruct (launchctl env _ _) as [rc h]; simpl; tauto.
  - unfold remove_job. unfold_M.
    destruct (next_by_name name (registry w) 0) as [[[i e] |] | err]; simpl;
      try tauto.
    destruct (Py.truthy e); simpl; try tauto.
    destruct (bool_decide _); simpl.
    + destruct (launchctl env _ _) as [rc h]; simpl.
      destruct (filter_name_ne name _) as [kept | err]; simpl; tauto.
    + destruct (filter_name_ne name _) as [kept | err]; simpl; tauto.
  - unfold enable_job, set_enabled. unfold_M.
    destruct (next_by_name name (registry w) 0) as [[[i e] |] | err]; simpl;
      try tauto.
    destruct (Py.truthy e); simpl; try tauto.
    destruct (bool_decide _); simpl.
    + destruct (launchctl env _ _) as [rc h]; simpl.
      destruct (Py.setitem e "enabled" _) as [e' | err]; simpl; tauto.
    + destruct (Py.setitem e "enabled" _) as [e' | err]; simpl; tauto.
  - unfold disable_job, set_enabled. unfold_M.
    destruct (next_by_name name (registry w) 0) as [[[i e] |] | err]; simpl;
      try tauto.
    destruct (Py.truthy e); simpl; try tauto.
    destruct (bool_decide _); simpl.
    + destruct (launchctl env _ _) as [rc h]; simpl.
      destruct (Py.setitem e "enabled" _) as [e' | err]; simpl; tauto.
    + destruct (Py.setitem e "enabled" _) as [e' | err]; simpl; tauto.
  - unfold list_jobs. unfold_M.
    destruct (registry w) as [| e es]; simpl; try tauto.
    destruct (launchctl env _ _) as [rc h]; simpl.
    destruct (match render_entry e with Return _ => _ | Raise _ => _ end);
      simpl; tauto.
  - unfold show_logs. unfold_M. tauto.
Qed.

(** X17: No command writes a log file; [enable], [disable], [list] and [logs]
    leave the definition files alone; [list] and [logs] leave the registry
    file alone. *)
Theorem main_file_effects (c : command) (w : World) :
  log_files (main env c w).2 = log_files w /\
  match c with
  | CmdAdd _ _ _ _ | CmdRemove _ => True
  | CmdEnable _ | CmdDisable _ => plist_files (main env c w).2 = plist_files w
  | CmdList | CmdLogs _ _ =>
      plist_files (main env c w).2 = plist_files w /\
      registry_file (main env c w).2 = registry_file w
  end.
Proof. apply main_file_effects_aux. Qed.

End Invariants.

(** ** Logs and paths *)

Section Logs.

Context {Host : Type} (env : Env Host).

Lemma slice_from_neg_pos {A} (n : Z) (l : list A) :
  (0 < n)%Z -> Py.slice_from_neg n l = drop (length l - Z.to_nat n) l.
Proof.
  intros Hn. unfold Py.slice_from_neg.
  destruct (Z.ltb_spec (- n) 0) as [_ | H]; [| lia].
  f_equal. lia.
Qed.


(** What [show_logs] prints is read off the two log files alone. *)
Lemma show_logs_run (w : World) (name : string) (lines : Z) :
  let out := log_files w !! path_join (path_join (REGISTRY_DIR env) "logs")
                                      (name +:+ ".log") in
  let err := log_files w !! path_join (path_join (REGISTRY_DIR env) "logs")
                                      (name +:+ ".err") in
  let r1 : dict :=
    match out with Some text => {[ "stdout" := log_tail lines text ]} | None => ∅ end in
  let r2 : dict :=
    match err with Some text => <["stderr" := log_tail lines text]> r1 | None => r1 end in
  show_logs env name lines w =
    (Return tt,
     mkWorld (registry_file w) (plist_files w) (log_files w) (dirs w) (host w)
             (trace w ++
              [EvPrint (JDict (if negb (Py.truthy (JDict r2))
                               then <["message" :=
                                        JStr ("No logs found for '" +:+ name +:+ "'")]> r2
                               else r2))])).
Proof.
  simpl. unfold show_logs. unfold_M.
  destruct (log_files w !! _) as [t1 |]; destruct (log_files w !! _) as [t2 |];
    reflexivity.
Qed.

(** X18: With a positive line count the lines shown for a log file that exists
    are the last [lines] lines of its stripped text (all of them when there
    are fewer), under [stdout] and [stderr]; a file that does not exist has no
    key, and there is no message as soon as one file exists. *)
Theorem show_logs_tail (w : World) (name : string) (lines : Z) :
  (0 < lines)%Z ->
  let tail_of (text : string) : list string :=
    let content := Py.split_lines (Py.strip text) in
    drop (length content - Z.to_nat lines) content in
  exists result : dict,
    show_logs env name lines w =
      (Return tt,
       mkWorld (registry_file w) (plist_files w) (log_files w) (dirs w) (host w)
               (trace w ++ [EvPrint (JDict result)])) /\
    result !! "stdout" =
      (fun text => JList (JStr <$> tail_of text)) <$>
      log_files w !! path_join (path_join (REGISTRY_DIR env) "logs") (name +:+ ".log") /\
    result !! "stderr" =
      (fun text => JList (JStr <$> tail_of text)) <$>
      log_files w !! path_join (path_join (REGISTRY_DIR env) "logs") (name +:+ ".err") /\
    (forall text, (Z.of_nat (length (tail_of text)) <= lines)%Z) /\
    (is_Some (result !! "stdout") \/ is_Some (result !! "stderr") ->
     result !! "message" = None).
Proof.
  intros Hl tail_of. eexists. split; [apply show_logs_run |].
  assert (Htail : forall text, log_tail lines text = JList (JStr <$> tail_of text)).
  { intros text. unfold log_tail. rewrite slice_from_neg_pos by exact Hl. reflexivity. }
  split; [| split; [| split]].
  - destruct (log_files w !! path_join _ (name +:+ ".log")) as [t1 |];
      destruct (log_files w !! path_join _ (name +:+ ".err")) as [t2 |];
      simpl; rewrite ?Htail; reflexivity.
  - destruct (log_files w !! path_join _ (name +:+ ".log")) as [t1 |];
      destruct (log_files w !! path_join _ (name +:+ ".err")) as [t2 |];
      simpl; rewrite ?Htail; reflexivity.
  - intros text. unfold tail_of. rewrite length_drop. lia.
  - destruct (log_files w !! path_join _ (name +:+ ".log")) as [t1 |];
      destruct (log_files w !! path_join _ (name +:+ ".err")) as [t2 |];
      simpl; intros [[? H] | [? H]]; first [reflexivity | discriminate].
Qed.


(** X20: Without any of the two log files [show_logs] prints the message alone,
    whether or not the job is in the registry. *)
Theorem show_logs_no_logs (w : World) (name : string) (lines : Z) :
  log_files w !! path_join (path_join (REGISTRY_DIR env) "logs") (name +:+ ".log")
    = None ->
  log_files w !! path_join (path_join (REGISTRY_DIR env) "logs") (name +:+ ".err")
    = None ->
  show_logs env name lines w =
    (Return tt,
     mkWorld (registry_file w) (plist_files w) (log_files w) (dirs w) (host w)
             (trace w ++
              [EvPrint (mkdict [("message",
                                 JStr ("No logs found for '" +:+ name +:+ "'"))])])).
Proof.
  intros Hout Herr. rewrite show_logs_run. simpl. rewrite Hout, Herr. reflexivity.
Qed.

(** X21: The logs outlive every command, [remove] included: after any invocation
    [show_logs] prints what it printed before. *)
Theorem show_logs_after_any_command
    (c : command) (w : World) (name : string) (lines : Z) :
  last (trace (show_logs env name lines (main env c w).2).2)
  = last (trace (show_logs env name lines w).2).
Proof.
  destruct (main_file_effects_aux env c w) as [Hlogs _].
  rewrite !show_logs_run. simpl. rewrite Hlogs, !last_snoc. reflexivity.
Qed.

End Logs.

(** ** Paths, and a removal that fails half-way *)

Section Paths.

Context {Host : Type} (env : Env Host).

















(** X23: [remove_job] unloads and deletes the definition file before it filters
    the registry: when the filter raises, on an entry without a name after
    the record found, the file is gone and the registry file still has the
    record. *)
Theorem remove_job_filter_raises
    (w : World) (name : string) (i : nat) (e : json) (f : PlistFile) (err : exn) :
  next_by_name name (registry w) 0 = Return (Some (i, e)) ->
  filter_name_ne name (registry w) = Raise err ->
  plist_files w !! plist_path env name = Some f ->
  exists w',
    remove_job env name w = (Raise err, w') /\
    registry_file w' = registry_file w /\
    plist_files w' = delete (plist_path env name) (plist_files w) /\
    trace w' = trace w ++
      [EvLaunchctl ["unload"; plist_path env name]
         (launchctl env ["unload"; plist_path env name] (host w)).1;
       EvUnlink (plist_path env name)].
Proof.
  intros Hnext Hf Hex.
  destruct (next_by_name_some name (registry w) 0 i e Hnext)
    as (d & -> & Hd & _ & _).
  destruct (launchctl env ["unload"; plist_path env name] (host w)) as [rc h] eqn:Hl.
  eexists. split.
  - unfold remove_job. unfold_M. rewrite Hnext.
    rewrite (truthy_dict_lookup d "name" _ Hd). simpl. rewrite Hex. simpl.
    rewrite Hl. simpl. unfold registry in Hf |- *. simpl. rewrite Hf. simpl.
    reflexivity.
  - simpl. rewrite <- app_assoc. repeat split.
Qed.

End Paths.

(** Names that hold ['/'] can share a definition file: [pathlib] drops the
    empty and the ["."] components of the name. *)
Lemma plist_path_collapses :
  plist_path (Sample.env_rc 0) "a//b" = plist_path (Sample.env_rc 0) "a/b" /\
  plist_path (Sample.env_rc 0) "a/./b" = plist_path (Sample.env_rc 0) "a/b".
Proof. split; vm_compute; reflexivity. Qed.

(** ** These theorems at sample inputs *)

Lemma set_enabled_not_found_no_mutation_witness :
  enable_job (Sample.env_rc 0) "sync" (Sample.backup_world true true) =
    (Return tt,
     mkWorld (Some [Sample.backup_entry true])
             {[ Sample.backup_plist_path := Dumped ∅ ]} ∅ ∅ tt
             [EvPrint (mkdict [("error", JStr "Job 'sync' not found.")])]) /\
  disable_job (Sample.env_rc 0) "sync" (Sample.backup_world true true) =
    (Return tt,
     mkWorld (Some [Sample.backup_entry true])
             {[ Sample.backup_plist_path := Dumped ∅ ]} ∅ ∅ tt
             [EvPrint (mkdict [("error", JStr "Job 'sync' not found.")])]).
Proof.
  apply (set_enabled_not_found_no_mutation (Sample.env_rc 0)
           (Sample.backup_world true true) "sync").
  - vm_compute. repeat constructor. eauto.
  - vm_compute. intros Hin. apply list_elem_of_singleton in Hin. discriminate.
Defined.

Lemma disable_job_keeps_definition_witness :
  exists w',
    disable_job (Sample.env_rc 0) "backup" (Sample.backup_world true true)
    = (Return tt, w') /\
    plist_files w' = {[ Sample.backup_plist_path := Dumped ∅ ]}.
Proof.
  destruct (disable_job_keeps_definition (Sample.env_rc 0)
              (Sample.backup_world true true) "backup")
    as (i & d & w' & _ & _ & _ & Hrun & _ & Hfiles & _).
  - vm_compute. repeat constructor. eauto.
  - vm_compute. apply list_elem_of_here.
  - exists w'. split; [exact Hrun | exact Hfiles].
Defined.

Lemma disable_then_enable_witness :
  exists w1 w2,
    disable_job (Sample.env_rc 0) "backup" (Sample.backup_world true true)
    = (Return tt, w1) /\
    enable_job (Sample.env_rc 0) "backup" w1 = (Return tt, w2) /\
    plist_files w2 = {[ Sample.backup_plist_path := Dumped ∅ ]}.
Proof.
  destruct (disable_then_enable (Sample.env_rc 0)
              (Sample.backup_world true true) "backup")
    as (i & d & w1 & w2 & _ & _ & _ & Hrun1 & Hrun2 & _ & Hfiles & _).
  - vm_compute. repeat constructor. eauto.
  - vm_compute. apply list_elem_of_here.
  - exists w1, w2. split; [exact Hrun1 |]. split; [exact Hrun2 | exact Hfiles].
Defined.


Lemma add_job_twice_witness :
  let w1 :=
    (add_job (Sample.env_rc 0) "sync" "rsync -a a b" {[ "interval" := JInt 300 ]} ""
             (Sample.backup_world true true)).2 in
  exists w2,
    add_job (Sample.env_rc 0) "sync" "true" ∅ "again" w1 = (Return tt, w2) /\
    registry_file w2 = registry_file w1 /\
    plist_files w2 = plist_files w1.
Proof.
  intros w1.
  destruct (add_job_twice (Sample.env_rc 0) (Sample.backup_world true true) w1
              "sync" "rsync -a a b" "true" {[ "interval" := JInt 300 ]} ∅ "" "again")
    as (entry & w2 & _ & _ & Hrun2 & Hreg & Hfiles & _).
  - vm_compute. repeat constructor. eauto.
  - vm_compute. intros Hin. apply list_elem_of_singleton in Hin. discriminate.
  - vm_compute. reflexivity.
  - exists w2. split; [exact Hrun2 |]. split; [exact Hreg | exact Hfiles].
Defined.

Lemma add_then_remove_witness :
  let w1 :=
    (add_job (Sample.env_rc 0) "sync" "rsync -a a b" {[ "interval" := JInt 300 ]} ""
             (Sample.backup_world true true)).2 in
  exists w2,
    remove_job (Sample.env_rc 0) "sync" w1 = (Return tt, w2) /\
    registry w2 = [Sample.backup_entry true].
Proof.
  intros w1.
  destruct (add_then_remove (Sample.env_rc 0) (Sample.backup_world true true) w1
              "sync" "rsync -a a b" {[ "interval" := JInt 300 ]} "")
    as (w2 & Hrun2 & Hreg & _).
  - vm_compute. repeat constructor. eauto.
  - vm_compute. intros Hin. apply list_elem_of_singleton in Hin. discriminate.
  - vm_compute. reflexivity.
  - exists w2. split; [exact Hrun2 | exact Hreg].
Defined.

Lemma add_job_dump_fails_witness :
  exists w',
    add_job Sample.env_dump_fails "sync" "true"
            {[ "calendar" := mkdict [("Hour", JNull)] ]} ""
            Sample.empty_world = (Raise TypeError, w') /\
    registry_file w' = None /\
    trace w' =
      [EvWritePlist "/Users/jones/Library/LaunchAgents/com.joneshong.scheduler.sync.plist"].
Proof.
  destruct (add_job_dump_fails Sample.env_dump_fails Sample.empty_world
              "sync" "true" {[ "calendar" := mkdict [("Hour", JNull)] ]} "" TypeError)
    as (w' & Hrun & Hreg & _ & _ & Htrace).
  - constructor.
  - vm_compute. apply not_elem_of_nil.
  - reflexivity.
  - exists w'. split; [exact Hrun |]. split; [exact Hreg | exact Htrace].
Defined.

Lemma registry_entries_keep_names_witness :
  Forall (fun w' => Forall has_name (registry w'))
    (run (Sample.env_rc 1)
         [CmdAdd "sync" "rsync -a a b" {[ "interval" := JInt 300 ]} "";
          CmdDisable "sync"; CmdRemove "backup"; CmdList]
         (Sample.backup_world true true)).
Proof.
  apply (registry_entries_keep_names (Sample.env_rc 1)).
  vm_compute. repeat constructor. eauto.
Defined.

Lemma show_logs_tail_witness :
  exists result : dict,
    (show_logs (Sample.env_rc 0) "backup" 2 Sample.logs_world).1 = Return tt /\
    last (trace (show_logs (Sample.env_rc 0) "backup" 2 Sample.logs_world).2)
      = Some (EvPrint (JDict result)) /\
    result !! "stdout" = Some (JList [JStr "two"; JStr "three"]) /\
    result !! "stderr" = None.
Proof.
  destruct (show_logs_tail (Sample.env_rc 0) Sample.logs_world "backup" 2)
    as (result & Hrun & Hout & Herr & _); [lia |].
  exists result. rewrite Hrun. split; [reflexivity |]. split; [reflexivity |].
  split; [rewrite Hout | rewrite Herr]; reflexivity.
Defined.


Lemma show_logs_no_logs_witness :
  show_logs (Sample.env_rc 0) "backup" 20 (Sample.backup_world true true) =
    (Return tt,
     mkWorld (Some [Sample.backup_entry true])
             {[ Sample.backup_plist_path := Dumped ∅ ]} ∅ ∅ tt
             [EvPrint (mkdict [("message", JStr "No logs found for 'backup'")])]).
Proof.
  apply (show_logs_no_logs (Sample.env_rc 0) (Sample.backup_world true true)
           "backup" 20); reflexivity.
Defined.


Lemma remove_job_filter_raises_witness :
  exists w',
    remove_job (Sample.env_rc 0) "backup" Sample.broken_world = (Raise KeyError, w') /\
    registry_file w' = Some [Sample.backup_entry true; JDict ∅] /\
    plist_files w' = ∅.
Proof.
  destruct (remove_job_filter_raises (Sample.env_rc 0) Sample.broken_world "backup"
              0 (Sample.backup_entry true) (Dumped ∅) KeyError)
    as (w' & Hrun & Hreg & Hfiles & _); try (vm_compute; reflexivity).
  exists w'. split; [exact Hrun |]. split; [exact Hreg |].
  rewrite Hfiles. vm_compute. reflexivity.
Defined.
